(** * Interval join of events and samples in the pupil-tutorials notebooks

    A shallow embedding of the two code paths of the repository that
    correlate time-windowed events with a sample table:

    - tutorial 06, [06_fixation_pupil_diameter.ipynb], cell 5: the mean
      3d pupil diameter per fixation on a surface (aggregation);
    - tutorial 10 (merge fixation and blink ids into the gaze dataframe),
      cells 11 to 14: the blink and fixation ids written back onto the gaze
      samples (tagging).

    Data frames are lists of row records, columns of dtype float64 are
    binary64 primitive floats, integer identifiers are [Z], and the Python
    [None] of an object column is [None] of [option]. *)

From Stdlib Require Import ZArith List Bool Lia Floats Sorted Permutation.
From Stdlib Require Uint63.
From Stdlib Require String.
Import String.StringSyntax.
Delimit Scope string_scope with string.
Import ListNotations.

Set Warnings "-inexact-float".

(** ** Python outcomes *)

(** The exceptions the modelled cells can raise. *)
Inductive exception : Type :=
| IndexError
| AttributeError.

Inductive outcome (A : Type) : Type :=
| Returned (a : A)
| Raised (e : exception).

Arguments Returned {A} a.
Arguments Raised {A} e.

Definition bind {A B : Type} (m : outcome A) (k : A -> outcome B) : outcome B :=
  match m with
  | Returned a => k a
  | Raised e => Raised e
  end.

Notation "x <- m ;; k" := (bind m (fun x => k))
  (at level 61, m at next level, right associativity).

(** [for x in xs: s = body(s, x)], stopping at the first exception. *)
Fixpoint for_each {A S : Type} (body : S -> A -> outcome S) (xs : list A) (s : S)
  : outcome S :=
  match xs with
  | [] => Returned s
  | x :: rest => s' <- body s x ;; for_each body rest s'
  end.

(** ** The pandas operations the notebooks call *)

Module Pandas.

Local Open Scope float_scope.

(** [left <= right] and [left >= right] on float64 scalars. *)
Definition le (left right : float) : bool := left <=? right.
Definition ge (left right : float) : bool := right <=? left.

(** [Series.between(left, right)]: [left <= series <= right], elementwise. *)
Definition between (x left right : float) : bool :=
  le left x && le x right.

(** [mask1 & mask2] on boolean Series of equal length. *)
Fixpoint mask_and (m1 m2 : list bool) : list bool :=
  match m1, m2 with
  | b1 :: r1, b2 :: r2 => (b1 && b2) :: mask_and r1 r2
  | _, _ => []
  end.

(** [df[mask]]: the rows at which the mask is [True], in frame order. *)
Fixpoint boolean_index {A : Type} (df : list A) (mask : list bool) : list A :=
  match df, mask with
  | r :: df', b :: mask' =>
      if b then r :: boolean_index df' mask' else boolean_index df' mask'
  | _, _ => []
  end.

(** [df.loc[mask, column] = value], with [set_column] the write of one cell. *)
Fixpoint loc_assign {A V : Type} (set_column : V -> A -> A)
         (df : list A) (mask : list bool) (value : V) : list A :=
  match df, mask with
  | r :: df', b :: mask' =>
      (if b then set_column value r else r) :: loc_assign set_column df' mask' value
  | _, _ => df
  end.

(** [mask.sum()] on a boolean Series: [True] counts 1, [False] counts 0. *)
Definition sum_mask (mask : list bool) : Z :=
  fold_left (fun n (b : bool) => if b then (n + 1)%Z else n) mask 0%Z.

(** [Series.mean()] of a float64 column: NaN entries are skipped
    ([skipna=True]) and the mean of no entries is NaN. *)
Definition mean (values : list float) : float :=
  let kept := filter (fun v => negb (is_nan v)) values in
  match kept with
  | [] => nan
  | _ :: _ =>
      fold_left add kept 0 / of_uint63 (Uint63.of_Z (Z.of_nat (length kept)))
  end.

(** [df.iloc[0]]. *)
Definition iloc0 {A : Type} (df : list A) : outcome A :=
  match df with
  | [] => Raised IndexError
  | r :: _ => Returned r
  end.

(** The group keys of [df.groupby(column)]: the distinct values of the
    column, sorted ascending ([sort=True] is the default). *)
Fixpoint insert_key (k : Z) (ks : list Z) : list Z :=
  match ks with
  | [] => [k]
  | h :: t =>
      if (k <? h)%Z then k :: ks
      else if (k =? h)%Z then ks
      else h :: insert_key k t
  end.

Definition group_keys (column : list Z) : list Z :=
  fold_right insert_key [] column.

(** Iterating [df.groupby(column)] yields one [(key, sub-frame)] per key;
    the sub-frame holds the rows of that key in their original order. *)
Definition groupby {A : Type} (column : A -> Z) (df : list A)
  : list (Z * list A) :=
  map (fun k => (k, filter (fun r => (column r =? k)%Z) df))
      (group_keys (map column df)).

End Pandas.

(** ** Tutorial 06: mean pupil diameter by fixation on a surface *)

Module Tutorial06.

Local Open Scope float_scope.

(** A row of [pupil_positions] after the column selection of cell 4. *)
Record pupil_position : Type := {
  pupil_timestamp : float;
  diameter_3d : float;
  confidence : float
}.

(** A row of [fixations_on_surface] after the column selection of cell 4. *)
Record fixation_on_surface : Type := {
  fixation_id : Z;
  start_timestamp : float;
  duration : float;
  on_surf : bool
}.

Definition MIN_CONFIDENCE : float := 0.8.

(** [fixation_end = fixation_start + first_fixation.duration / 1000]. *)
Definition fixation_end (first_fixation : fixation_on_surface) : float :=
  start_timestamp first_fixation + duration first_fixation / 1000.

(** The three boolean masks of the loop body and the rows they select. *)
Definition mask_after_start (pupil_positions : list pupil_position)
           (fixation_start : float) : list bool :=
  map (fun p => Pandas.le fixation_start (pupil_timestamp p)) pupil_positions.

Definition mask_before_end (pupil_positions : list pupil_position)
           (fixation_end : float) : list bool :=
  map (fun p => Pandas.le (pupil_timestamp p) fixation_end) pupil_positions.

Definition mask_high_confidence (pupil_positions : list pupil_position)
           (min_confidence : float) : list bool :=
  map (fun p => Pandas.ge (confidence p) min_confidence) pupil_positions.

Definition pupil_positions_during_fixation (min_confidence : float)
           (pupil_positions : list pupil_position)
           (first_fixation : fixation_on_surface) : list pupil_position :=
  Pandas.boolean_index pupil_positions
    (Pandas.mask_and
       (Pandas.mask_and
          (mask_after_start pupil_positions (start_timestamp first_fixation))
          (mask_before_end pupil_positions (fixation_end first_fixation)))
       (mask_high_confidence pupil_positions min_confidence)).

(** The body of the [for _, fixations in ...groupby("fixation_id")] loop;
    [results] is the list the loop appends to. *)
Definition loop_body (min_confidence : float)
           (pupil_positions : list pupil_position)
           (results : list (Z * float))
           (group : Z * list fixation_on_surface)
  : outcome (list (Z * float)) :=
  let fixations := snd group in
  first_fixation <- Pandas.iloc0 fixations ;;
  if negb (on_surf first_fixation) then Returned results
  else
    let diameter_3d_during_fixation :=
      map diameter_3d
          (pupil_positions_during_fixation min_confidence pupil_positions
                                           first_fixation) in
    Returned (results ++ [(fixation_id first_fixation,
                           Pandas.mean diameter_3d_during_fixation)]).

(** Cell 5 with the threshold as a parameter: the rows of
    [mean_diameter_3d_by_fixation]. *)
Definition aggregate_by_fixation (min_confidence : float)
           (pupil_positions : list pupil_position)
           (fixations_on_surface : list fixation_on_surface)
  : outcome (list (Z * float)) :=
  for_each (loop_body min_confidence pupil_positions)
           (Pandas.groupby fixation_id fixations_on_surface) [].

(** Cell 5 as written, with [MIN_CONFIDENCE = 0.8]. *)
Definition mean_diameter_3d_by_fixation
           (pupil_positions : list pupil_position)
           (fixations_on_surface : list fixation_on_surface)
  : outcome (list (Z * float)) :=
  aggregate_by_fixation MIN_CONFIDENCE pupil_positions fixations_on_surface.

(** *** Cells 3 and 4: from the loaded frame to the frame of cell 5 *)

(** A row of [pupil_positions] as loaded from the export, with the
    columns the notebook reads. *)
Module PupilCsv.
Record t : Type := {
  pupil_timestamp : float;
  diameter_3d : float;
  confidence : float;
  method : String.string
}.
End PupilCsv.

Definition method_3d : String.string := "3d c++"%string.

(** Cell 3: [pupil_positions[pupil_positions.method == "3d c++"]]. *)
Definition only_3d (pupil_positions : list PupilCsv.t) : list PupilCsv.t :=
  Pandas.boolean_index pupil_positions
    (map (fun r => String.eqb (PupilCsv.method r) method_3d) pupil_positions).

(** Cell 4:
    [pupil_positions[["pupil_timestamp", "diameter_3d", "confidence"]]]. *)
Definition select_columns (pupil_positions : list PupilCsv.t)
  : list pupil_position :=
  map (fun r => {| pupil_timestamp := PupilCsv.pupil_timestamp r;
                   diameter_3d := PupilCsv.diameter_3d r;
                   confidence := PupilCsv.confidence r |})
      pupil_positions.

(** Cells 3 to 5 in notebook order. *)
Definition notebook_06 (pupil_positions : list PupilCsv.t)
           (fixations_on_surface : list fixation_on_surface)
  : outcome (list (Z * float)) :=
  mean_diameter_3d_by_fixation (select_columns (only_3d pupil_positions))
                               fixations_on_surface.

(** *** Reference notions for the statements about cell 5 *)

(** The first row of [fixations_on_surface] that carries identifier [i]. *)
Definition first_occurrence (i : Z)
           (fixations_on_surface : list fixation_on_surface)
  : option fixation_on_surface :=
  find (fun r => (fixation_id r =? i)%Z) fixations_on_surface.

(** A pupil sample matches a fixation in aggregation mode: its timestamp
    lies in the closed window [[start, start + duration / 1000]] and its
    confidence is at least the threshold. *)
Definition sample_matches (min_confidence : float)
           (first_fixation : fixation_on_surface) (p : pupil_position) : bool :=
  (start_timestamp first_fixation <=? pupil_timestamp p)
  && (pupil_timestamp p <=?
        start_timestamp first_fixation + duration first_fixation / 1000)
  && (min_confidence <=? confidence p).

(** An identifier is valid when its first row is on the surface. *)
Definition valid_id (fixations_on_surface : list fixation_on_surface) (i : Z)
  : bool :=
  match first_occurrence i fixations_on_surface with
  | Some r => on_surf r
  | None => false
  end.

(** What the loop appends for group key [k]. *)
Definition emitted (min_confidence : float)
           (pupil_positions : list pupil_position)
           (fixations_on_surface : list fixation_on_surface) (k : Z)
  : list (Z * float) :=
  match first_occurrence k fixations_on_surface with
  | Some r =>
      if on_surf r
      then [(fixation_id r,
             Pandas.mean
               (map diameter_3d
                    (filter (sample_matches min_confidence r) pupil_positions)))]
      else []
  | None => []
  end.

(** The distinct identifiers of a frame in order of first appearance,
    and those of them that are valid. *)
Fixpoint first_appearance (seen : list Z) (ids : list Z) : list Z :=
  match ids with
  | [] => []
  | i :: rest =>
      if existsb (Z.eqb i) seen then first_appearance seen rest
      else i :: first_appearance (i :: seen) rest
  end.

Definition valid_ids_by_first_appearance
           (fixations_on_surface : list fixation_on_surface) : list Z :=
  filter (valid_id fixations_on_surface)
         (first_appearance [] (map fixation_id fixations_on_surface)).

(** Membership of the closed unit interval. *)
Definition in_unit_interval (x : float) : bool := (0 <=? x) && (x <=? 1).

(** *** Sample frames *)

Definition two_pupil_positions : list pupil_position :=
  [ {| pupil_timestamp := 0; diameter_3d := 4; confidence := 0.9 |};
    {| pupil_timestamp := 1; diameter_3d := 6; confidence := 0.5 |} ].

Definition fixation_row (i : Z) (start dur : float) (surf : bool)
  : fixation_on_surface :=
  {| fixation_id := i; start_timestamp := start; duration := dur;
     on_surf := surf |}.

(** Identifier 2 appears before identifier 1. *)
Definition fixations_2_then_1 : list fixation_on_surface :=
  [ fixation_row 2 0 2000 true; fixation_row 1 0 2000 true ].

(** Identifier 7 is exported twice with different boundaries. *)
Definition fixations_with_duplicate : list fixation_on_surface :=
  [ fixation_row 7 0 500 true; fixation_row 8 0 2000 true;
    fixation_row 7 0 2000 false ].

(** Pupil samples before, at the bounds of, and after the window of a
    fixation that starts at 10 s and lasts 500 ms. *)
Definition pupil_positions_around_window : list pupil_position :=
  [ {| pupil_timestamp := 9.75; diameter_3d := 3; confidence := 1 |};
    {| pupil_timestamp := 10; diameter_3d := 4; confidence := 1 |};
    {| pupil_timestamp := 10.5; diameter_3d := 6; confidence := 0.8 |};
    {| pupil_timestamp := 10.75; diameter_3d := 7; confidence := 1 |} ].

(** Loaded pupil rows of both detection methods. *)
Definition csv_row (ts diam conf : float) (m : String.string) : PupilCsv.t :=
  {| PupilCsv.pupil_timestamp := ts; PupilCsv.diameter_3d := diam;
     PupilCsv.confidence := conf; PupilCsv.method := m |}.

Definition method_2d : String.string := "2d c++"%string.

(** One identifier per row, not in ascending order. *)
Definition fixations_3_1_2 : list fixation_on_surface :=
  [ fixation_row 3 0 500 true; fixation_row 1 0 2000 true;
    fixation_row 2 1 500 false ].

(** A fixation on the surface with no pupil sample in its window. *)
Definition fixations_without_samples : list fixation_on_surface :=
  [ fixation_row 3 10 500 true ].

End Tutorial06.

(** ** Tutorial 10: blink and fixation ids merged into the gaze frame *)

Module Tutorial10.

Local Open Scope float_scope.

(** A row of the [gaze] frame: the columns the notebook displays. The
    two label columns hold [None] or an event id from cell 12 on. *)
Module Gaze.
Record t : Type := {
  gaze_timestamp : float;
  confidence : float;
  norm_pos_x : float;
  norm_pos_y : float;
  blink_id : option Z;
  fixation_id : option Z
}.

(** Writing one cell of the [blink_id] or [fixation_id] column. *)
Definition set_blink_id (v : option Z) (g : t) : t :=
  {| gaze_timestamp := gaze_timestamp g;
     confidence := confidence g;
     norm_pos_x := norm_pos_x g;
     norm_pos_y := norm_pos_y g;
     blink_id := v;
     fixation_id := fixation_id g |}.

Definition set_fixation_id (v : option Z) (g : t) : t :=
  {| gaze_timestamp := gaze_timestamp g;
     confidence := confidence g;
     norm_pos_x := norm_pos_x g;
     norm_pos_y := norm_pos_y g;
     blink_id := blink_id g;
     fixation_id := v |}.
End Gaze.

(** A row of [blinks]. *)
Module Blink.
Record t : Type := {
  id : Z;
  start_timestamp : float;
  end_timestamp : float
}.
End Blink.

(** A row of [fixations]. The export has no [end_timestamp] column:
    the field is [None] until cell 11 adds the column. *)
Module Fixation.
Record t : Type := {
  id : Z;
  start_timestamp : float;
  duration : float;
  end_timestamp : option float
}.

Definition set_end_timestamp (v : float) (f : t) : t :=
  {| id := id f;
     start_timestamp := start_timestamp f;
     duration := duration f;
     end_timestamp := Some v |}.
End Fixation.

(** The three frames the cells share. *)
Record notebook : Type := {
  gaze : list Gaze.t;
  blinks : list Blink.t;
  fixations : list Fixation.t
}.

(** Cell 11:
    [fixations["end_timestamp"] = fixations.start_timestamp + fixations.duration / 1_000]. *)
Definition add_end_timestamp (nb : notebook) : notebook :=
  {| gaze := gaze nb;
     blinks := blinks nb;
     fixations :=
       map (fun f => Fixation.set_end_timestamp
                       (Fixation.start_timestamp f + Fixation.duration f / 1000) f)
           (fixations nb) |}.

(** Cell 12: [gaze["blink_id"] = None; gaze["fixation_id"] = None]. *)
Definition init_label_columns (nb : notebook) : notebook :=
  {| gaze := map (fun g => Gaze.set_fixation_id None (Gaze.set_blink_id None g))
                 (gaze nb);
     blinks := blinks nb;
     fixations := fixations nb |}.

(** [gaze.gaze_timestamp.between(start, end)]. *)
Definition found_sample_mask (gaze : list Gaze.t) (start_ts end_ts : float)
  : list bool :=
  map (fun g => Pandas.between (Gaze.gaze_timestamp g) start_ts end_ts) gaze.

(** Cell 13, the body of [for blink in blinks.itertuples()]. The
    [print] of the number of found samples writes to the cell output
    only and is left out. *)
Definition blink_body (gaze : list Gaze.t) (blink : Blink.t) : list Gaze.t :=
  Pandas.loc_assign Gaze.set_blink_id gaze
    (found_sample_mask gaze (Blink.start_timestamp blink) (Blink.end_timestamp blink))
    (Some (Blink.id blink)).

Definition tag_blinks (nb : notebook) : notebook :=
  {| gaze := fold_left blink_body (blinks nb) (gaze nb);
     blinks := blinks nb;
     fixations := fixations nb |}.

(** Cell 13 with its output: the loop state is the gaze frame and the
    lines printed so far; the line
    [Found {num_samples} gaze samples for blink {blink.id}] is the pair
    of the two numbers it shows. *)
Definition blink_body_printing (state : list Gaze.t * list (Z * Z))
           (blink : Blink.t) : list Gaze.t * list (Z * Z) :=
  let gaze := fst state in
  let found_sample_mask :=
    found_sample_mask gaze (Blink.start_timestamp blink)
                      (Blink.end_timestamp blink) in
  let gaze' :=
    Pandas.loc_assign Gaze.set_blink_id gaze found_sample_mask
                      (Some (Blink.id blink)) in
  let num_samples := Pandas.sum_mask found_sample_mask in
  (gaze', snd state ++ [(num_samples, Blink.id blink)]).

Definition tag_blinks_printing (nb : notebook) : notebook * list (Z * Z) :=
  let final := fold_left blink_body_printing (blinks nb) (gaze nb, []) in
  ({| gaze := fst final; blinks := blinks nb; fixations := fixations nb |},
   snd final).

(** Cell 14, the body of [for fixation in fixations.itertuples()];
    [fixation.end_timestamp] raises when the column is absent. *)
Definition fixation_body (gaze : list Gaze.t) (fixation : Fixation.t)
  : outcome (list Gaze.t) :=
  match Fixation.end_timestamp fixation with
  | None => Raised AttributeError
  | Some end_ts =>
      Returned
        (Pandas.loc_assign Gaze.set_fixation_id gaze
           (found_sample_mask gaze (Fixation.start_timestamp fixation) end_ts)
           (Some (Fixation.id fixation)))
  end.

Definition tag_fixations (nb : notebook) : outcome notebook :=
  gaze' <- for_each fixation_body (fixations nb) (gaze nb) ;;
  Returned {| gaze := gaze'; blinks := blinks nb; fixations := fixations nb |}.

(** Cells 11 to 14 in notebook order. *)
Definition tag_samples (nb : notebook) : outcome notebook :=
  tag_fixations (tag_blinks (init_label_columns (add_end_timestamp nb))).


(** *** Reference notions for the statements about cells 11 to 14 *)

(** The closed window of a blink contains timestamp [ts]. *)
Definition blink_contains (ts : float) (b : Blink.t) : bool :=
  (Blink.start_timestamp b <=? ts) && (ts <=? Blink.end_timestamp b).

(** The closed window [[start, start + duration / 1000]] of a fixation
    contains timestamp [ts]. *)
Definition fixation_window_contains (ts : float) (f : Fixation.t) : bool :=
  (Fixation.start_timestamp f <=? ts)
  && (ts <=? Fixation.start_timestamp f + Fixation.duration f / 1000).

(** The window of a fixation as cell 14 reads it, from the
    [end_timestamp] column. *)
Definition fixation_contains (ts : float) (f : Fixation.t) : bool :=
  match Fixation.end_timestamp f with
  | Some end_ts => Pandas.between ts (Fixation.start_timestamp f) end_ts
  | None => false
  end.

Definition has_end_timestamp (f : Fixation.t) : bool :=
  match Fixation.end_timestamp f with
  | Some _ => true
  | None => false
  end.

(** [label] is the identifier of the last event, in iteration order,
    that contains the sample, and the unmatched sentinel [None] when no
    event contains it. *)
Definition last_containing {E : Type} (contains : E -> bool) (ident : E -> Z)
           (events : list E) (label : option Z) : Prop :=
  match label with
  | Some i =>
      exists before e after,
        events = before ++ e :: after /\
        contains e = true /\ ident e = i /\
        (forall e', In e' after -> contains e' = false)
  | None => forall e, In e events -> contains e = false
  end.

(** The same label computed by one scan of the events. *)
Definition last_match {E : Type} (contains : E -> bool) (ident : E -> Z)
           (events : list E) : option Z :=
  fold_left (fun acc e => if contains e then Some (ident e) else acc)
            events None.

(** A gaze row after a tagging loop over [events]. *)
Definition relabel {E : Type} (contains : float -> E -> bool) (ident : E -> Z)
           (set_column : option Z -> Gaze.t -> Gaze.t)
           (events : list E) (g : Gaze.t) : Gaze.t :=
  match last_match (contains (Gaze.gaze_timestamp g)) ident events with
  | Some i => set_column (Some i) g
  | None => g
  end.

(** A gaze row after cells 11 to 14: reset, relabelled by the blinks,
    then by the fixations with their derived [end_timestamp]. *)
Definition tagged_row (nb : notebook) (g : Gaze.t) : Gaze.t :=
  relabel fixation_contains Fixation.id Gaze.set_fixation_id
          (fixations (add_end_timestamp nb))
    (relabel blink_contains Blink.id Gaze.set_blink_id (blinks nb)
       (Gaze.set_fixation_id None (Gaze.set_blink_id None g))).

(** The row carries blink id [i]. *)
Definition has_blink_id (i : Z) (g : Gaze.t) : bool :=
  match Gaze.blink_id g with
  | Some j => (j =? i)%Z
  | None => false
  end.

(** Rows [g] and [g'] agree on the columns loaded from the export. *)
Definition same_export_columns (g g' : Gaze.t) : Prop :=
  Gaze.gaze_timestamp g' = Gaze.gaze_timestamp g /\
  Gaze.confidence g' = Gaze.confidence g /\
  Gaze.norm_pos_x g' = Gaze.norm_pos_x g /\
  Gaze.norm_pos_y g' = Gaze.norm_pos_y g.

(** Fixations [f] and [f'] agree on the columns loaded from the export. *)
Definition same_exported_fixation (f f' : Fixation.t) : Prop :=
  Fixation.id f' = Fixation.id f /\
  Fixation.start_timestamp f' = Fixation.start_timestamp f /\
  Fixation.duration f' = Fixation.duration f.

(** Rows [g] and [g'] agree on every column but [blink_id]
    (respectively [fixation_id]). *)
Definition same_but_blink_id (g g' : Gaze.t) : Prop :=
  Gaze.gaze_timestamp g' = Gaze.gaze_timestamp g /\
  Gaze.confidence g' = Gaze.confidence g /\
  Gaze.norm_pos_x g' = Gaze.norm_pos_x g /\
  Gaze.norm_pos_y g' = Gaze.norm_pos_y g /\
  Gaze.fixation_id g' = Gaze.fixation_id g.

Definition same_but_fixation_id (g g' : Gaze.t) : Prop :=
  Gaze.gaze_timestamp g' = Gaze.gaze_timestamp g /\
  Gaze.confidence g' = Gaze.confidence g /\
  Gaze.norm_pos_x g' = Gaze.norm_pos_x g /\
  Gaze.norm_pos_y g' = Gaze.norm_pos_y g /\
  Gaze.blink_id g' = Gaze.blink_id g.

(** Cell 11 on one event: the fields it keeps and the one it writes. *)
Definition end_timestamp_added (f f' : Fixation.t) : Prop :=
  Fixation.id f' = Fixation.id f /\
  Fixation.start_timestamp f' = Fixation.start_timestamp f /\
  Fixation.duration f' = Fixation.duration f /\
  Fixation.end_timestamp f' =
    Some (Fixation.start_timestamp f + Fixation.duration f / 1000).

(** *** Sample frames *)

Definition gaze_row (ts conf : float) : Gaze.t :=
  {| Gaze.gaze_timestamp := ts; Gaze.confidence := conf;
     Gaze.norm_pos_x := 0.5; Gaze.norm_pos_y := 0.5;
     Gaze.blink_id := None; Gaze.fixation_id := None |}.

(** One fixation exported with a start and a duration of 500 ms, one
    blink overlapping it, and gaze samples around both. *)
Definition export_slice : notebook :=
  {| gaze := [ gaze_row 10 1; gaze_row 10.25 0.1; gaze_row 10.5 1;
               gaze_row 10.75 1 ];
     blinks := [ {| Blink.id := 5; Blink.start_timestamp := 10.25;
                    Blink.end_timestamp := 10.5 |} ];
     fixations := [ {| Fixation.id := 3; Fixation.start_timestamp := 10;
                       Fixation.duration := 500;
                       Fixation.end_timestamp := None |} ] |}.

(** Two blinks that share no sample, the later one listed first, and a
    gaze frame whose last row carries a stale label. *)
Definition two_blinks_slice : notebook :=
  {| gaze := [ gaze_row 1 1; gaze_row 1.5 1; gaze_row 2 1; gaze_row 3 1;
               gaze_row 4 0.2; Gaze.set_blink_id (Some 4%Z) (gaze_row 6 1) ];
     blinks := [ {| Blink.id := 6; Blink.start_timestamp := 3;
                    Blink.end_timestamp := 4 |};
                 {| Blink.id := 5; Blink.start_timestamp := 1;
                    Blink.end_timestamp := 2 |} ];
     fixations := [ {| Fixation.id := 3; Fixation.start_timestamp := 1;
                       Fixation.duration := 500;
                       Fixation.end_timestamp := Some 1.5 |} ] |}.

End Tutorial10.

(** * Properties *)

(** ** Facts about the pandas operations *)

Section PandasFacts.

Context {A : Type}.

Lemma mask_and_map (f g : A -> bool) (df : list A) :
  Pandas.mask_and (map f df) (map g df) = map (fun r => f r && g r) df.
Proof.
  induction df as [|r df IH]; simpl; [reflexivity|].
  now rewrite IH.
Qed.

Lemma boolean_index_map (f : A -> bool) (df : list A) :
  Pandas.boolean_index df (map f df) = filter f df.
Proof.
  induction df as [|r df IH]; simpl; [reflexivity|].
  rewrite IH. reflexivity.
Qed.

Lemma loc_assign_map {V : Type} (set_column : V -> A -> A) (f : A -> bool)
      (df : list A) (v : V) :
  Pandas.loc_assign set_column df (map f df) v
  = map (fun r => if f r then set_column v r else r) df.
Proof.
  induction df as [|r df IH]; simpl; [reflexivity|].
  now rewrite IH.
Qed.

Lemma iloc0_filter (f : A -> bool) (df : list A) :
  Pandas.iloc0 (filter f df)
  = match find f df with
    | Some r => Returned r
    | None => Raised IndexError
    end.
Proof.
  induction df as [|r df IH]; simpl; [reflexivity|].
  destruct (f r); simpl; [reflexivity | exact IH].
Qed.

End PandasFacts.

Lemma insert_key_In (k x : Z) (ks : list Z) :
  In x (Pandas.insert_key k ks) <-> x = k \/ In x ks.
Proof.
  induction ks as [|h t IH]; simpl.
  - intuition.
  - destruct (Z.ltb_spec k h); simpl; [intuition|].
    destruct (Z.eqb_spec k h); simpl.
    + subst. intuition.
    + rewrite IH. intuition.
Qed.

Lemma insert_key_sorted (k : Z) (ks : list Z) :
  StronglySorted Z.lt ks -> StronglySorted Z.lt (Pandas.insert_key k ks).
Proof.
  induction 1 as [|h t Hs IH Hall]; simpl.
  - repeat constructor.
  - destruct (Z.ltb_spec k h).
    + constructor; [now constructor|].
      constructor; [assumption|].
      rewrite Forall_forall in *. intros x Hx. specialize (Hall x Hx). lia.
    + destruct (Z.eqb_spec k h); [now constructor|].
      constructor; [exact IH|].
      rewrite Forall_forall in *. intros x Hx.
      apply insert_key_In in Hx. destruct Hx as [->|Hx]; [lia | auto].
Qed.

Lemma group_keys_In (x : Z) (column : list Z) :
  In x (Pandas.group_keys column) <-> In x column.
Proof.
  induction column as [|c column IH]; simpl; [tauto|].
  rewrite insert_key_In, IH. intuition.
Qed.

Lemma group_keys_sorted (column : list Z) :
  StronglySorted Z.lt (Pandas.group_keys column).
Proof.
  induction column as [|c column IH]; simpl.
  - constructor.
  - now apply insert_key_sorted.
Qed.

Lemma strictly_sorted_NoDup (l : list Z) : StronglySorted Z.lt l -> NoDup l.
Proof.
  induction 1 as [|h t Hs IH Hall]; constructor; [|exact IH].
  intro Hin. rewrite Forall_forall in Hall. specialize (Hall h Hin). lia.
Qed.

Lemma strictly_sorted_filter (f : Z -> bool) (l : list Z) :
  StronglySorted Z.lt l -> StronglySorted Z.lt (filter f l).
Proof.
  induction 1 as [|h t Hs IH Hall]; simpl; [constructor|].
  destruct (f h); [|exact IH].
  constructor; [exact IH|].
  rewrite Forall_forall in *. intros x Hx.
  apply filter_In in Hx. now apply Hall.
Qed.

Lemma mean_nil : Pandas.mean [] = nan.
Proof. reflexivity. Qed.

(** A float that is not NaN is below or equal to itself. *)
Lemma leb_refl (x : float) : is_nan x = false -> (x <=? x)%float = true.
Proof.
  unfold is_nan. intro H. apply negb_false_iff in H.
  rewrite eqb_spec in H. rewrite leb_spec.
  unfold SFeqb, SFleb in *.
  destruct (SFcompare (Prim2SF x) (Prim2SF x)) as [[]|]; congruence.
Qed.

Lemma SFleb_refl (x : spec_float) : x <> S754_nan -> SFleb x x = true.
Proof.
  unfold SFleb. destruct x as [s|s| |s m e]; simpl; try congruence;
    try (now destruct s).
  intros _. rewrite Z.compare_refl.
  change (PosDef.Pos.compare_cont Eq m m) with (Pos.compare m m).
  rewrite Pos.compare_refl. now destruct s.
Qed.

(** The bounds of a window that is not empty are not NaN. *)
Lemma leb_bounds_refl (x y : float) :
  (x <=? y)%float = true -> (x <=? x)%float = true /\ (y <=? y)%float = true.
Proof.
  rewrite !leb_spec. intro H.
  assert (Hx : Prim2SF x <> S754_nan).
  { intro Hn. rewrite Hn in H. discriminate. }
  assert (Hy : Prim2SF y <> S754_nan).
  { intro Hn. rewrite Hn in H. unfold SFleb in H.
    now destruct (Prim2SF x). }
  split; now apply SFleb_refl.
Qed.

Lemma SFleb_trans (x y z : spec_float) :
  SFleb x y = true -> SFleb y z = true -> SFleb x z = true.
Proof.
  unfold SFleb.
  destruct x as [sx|sx| |sx mx ex], y as [sy|sy| |sy my ey],
           z as [sz|sz| |sz mz ez]; simpl;
    try discriminate; try reflexivity;
    try (destruct sx; simpl; try discriminate; try reflexivity;
         destruct sy; simpl; try discriminate; try reflexivity;
         destruct sz; simpl; try discriminate; try reflexivity; fail).
  all: destruct sx, sy, sz; simpl; try discriminate; try reflexivity.
  all: change (PosDef.Pos.compare_cont Eq) with Pos.compare.
  all: destruct (Z.compare_spec ex ey), (Z.compare_spec ey ez),
         (Z.compare_spec ex ez); try discriminate; try reflexivity; try lia.
  all: subst.
  all: destruct (Pos.compare_spec mx my), (Pos.compare_spec my mz),
         (Pos.compare_spec mx mz); simpl;
         try discriminate; try reflexivity; try lia.
Qed.

Lemma leb_trans (x y z : float) :
  (x <=? y)%float = true -> (y <=? z)%float = true -> (x <=? z)%float = true.
Proof. rewrite !leb_spec. apply SFleb_trans. Qed.

Lemma is_nan_Prim2SF (x : float) : is_nan x = true -> Prim2SF x = S754_nan.
Proof.
  unfold is_nan. intro H. apply negb_true_iff in H. rewrite eqb_spec in H.
  destruct (Prim2SF x) as [s|s| |s m e] eqn:Hx; [| |reflexivity|];
    exfalso; revert H; unfold SFeqb; simpl.
  - discriminate.
  - destruct s; discriminate.
  - rewrite Z.compare_refl.
    change (PosDef.Pos.compare_cont Eq m m) with (Pos.compare m m).
    rewrite Pos.compare_refl. destruct s; discriminate.
Qed.

(** NaN is below nothing and above nothing. *)
Lemma leb_nan (x y : float) :
  is_nan x = true -> (x <=? y)%float = false /\ (y <=? x)%float = false.
Proof.
  intro H. apply is_nan_Prim2SF in H. rewrite !leb_spec, H.
  split; [reflexivity|]. unfold SFleb. now destruct (Prim2SF y).
Qed.

(** A window whose bounds are not in order contains no timestamp. *)
Lemma between_empty_window (x lo hi : float) :
  (lo <=? hi)%float = false -> Pandas.between x lo hi = false.
Proof.
  intro H. unfold Pandas.between, Pandas.le.
  destruct (lo <=? x)%float eqn:H1; [|reflexivity].
  destruct (x <=? hi)%float eqn:H2; [|reflexivity].
  rewrite (leb_trans _ _ _ H1 H2) in H. discriminate.
Qed.

Lemma strictly_sorted_same_elements (l1 : list Z) : forall l2,
  StronglySorted Z.lt l1 -> StronglySorted Z.lt l2 ->
  (forall x, In x l1 <-> In x l2) -> l1 = l2.
Proof.
  induction l1 as [|a l1 IH]; intros [|b l2] H1 H2 Hin.
  - reflexivity.
  - exfalso. apply (proj2 (Hin b)). now left.
  - exfalso. apply (proj1 (Hin a)). now left.
  - apply StronglySorted_inv in H1. destruct H1 as [Hs1 Ha].
    apply StronglySorted_inv in H2. destruct H2 as [Hs2 Hb].
    rewrite Forall_forall in Ha, Hb.
    assert (Hab : a = b).
    { destruct (proj1 (Hin a) (or_introl eq_refl)) as [->|Ha2]; [reflexivity|].
      destruct (proj2 (Hin b) (or_introl eq_refl)) as [->|Hb1]; [reflexivity|].
      specialize (Ha _ Hb1). specialize (Hb _ Ha2). lia. }
    subst b. f_equal. apply IH; try assumption.
    intro x. split; intro Hx.
    + destruct (proj1 (Hin x) (or_intror Hx)) as [<-|?]; [|assumption].
      specialize (Ha _ Hx). lia.
    + destruct (proj2 (Hin x) (or_intror Hx)) as [<-|?]; [|assumption].
      specialize (Hb _ Hx). lia.
Qed.

(** The group keys do not depend on the row order of the frame. *)
Lemma group_keys_Permutation (c1 c2 : list Z) :
  Permutation c1 c2 -> Pandas.group_keys c1 = Pandas.group_keys c2.
Proof.
  intro Hp. apply strictly_sorted_same_elements; try apply group_keys_sorted.
  intro x. rewrite !group_keys_In.
  split; apply Permutation_in; [assumption | now apply Permutation_sym].
Qed.

Lemma insert_key_length (k : Z) (ks : list Z) :
  (length (Pandas.insert_key k ks) <= S (length ks))%nat.
Proof.
  induction ks as [|h t IH]; simpl; [lia|].
  destruct (k <? h)%Z; simpl; [lia|]. destruct (k =? h)%Z; simpl; lia.
Qed.

Lemma group_keys_length (column : list Z) :
  (length (Pandas.group_keys column) <= length column)%nat.
Proof.
  induction column as [|c column IH]; simpl; [lia|].
  pose proof (insert_key_length c (Pandas.group_keys column)). lia.
Qed.

Lemma NoDup_map_injective {A B : Type} (f : A -> B) (l : list A) a b :
  NoDup (map f l) -> In a l -> In b l -> f a = f b -> a = b.
Proof.
  induction l as [|x l IH]; simpl; [tauto|].
  intro Hnd. apply NoDup_cons_iff in Hnd. destruct Hnd as [Hx Hnd].
  intros [<-|Ha] [<-|Hb] Hf; auto.
  - exfalso. apply Hx. rewrite Hf. now apply in_map.
  - exfalso. apply Hx. rewrite <- Hf. now apply in_map.
Qed.

Lemma sum_mask_map {A : Type} (f : A -> bool) (df : list A) :
  Pandas.sum_mask (map f df) = Z.of_nat (length (filter f df)).
Proof.
  unfold Pandas.sum_mask.
  assert (H : forall n,
             fold_left (fun n (b : bool) => if b then (n + 1)%Z else n)
                       (map f df) n
             = (n + Z.of_nat (length (filter f df)))%Z).
  { induction df as [|r df IH]; intro n; simpl; [lia|].
    rewrite IH. destruct (f r); simpl length; lia. }
  now rewrite H.
Qed.

(** ** Tutorial 06: the aggregation loop *)

Module Aggregation.

Import Tutorial06.
Local Open Scope float_scope.

Lemma first_occurrence_id i fos r :
  first_occurrence i fos = Some r -> fixation_id r = i.
Proof.
  unfold first_occurrence. intro H. apply find_some in H.
  destruct H as [_ H]. now apply Z.eqb_eq in H.
Qed.

Lemma first_occurrence_In i fos r :
  first_occurrence i fos = Some r -> In i (map fixation_id fos).
Proof.
  intro H. pose proof (first_occurrence_id _ _ _ H) as <-.
  unfold first_occurrence in H. apply find_some in H.
  apply in_map. tauto.
Qed.

Lemma first_occurrence_some i fos :
  In i (map fixation_id fos) -> exists r, first_occurrence i fos = Some r.
Proof.
  intro Hin. apply in_map_iff in Hin. destruct Hin as [r [Hid Hin]].
  unfold first_occurrence.
  destruct (find _ fos) as [r'|] eqn:Hf; [now exists r'|].
  apply (find_none _ _ Hf) in Hin. apply Z.eqb_neq in Hin. contradiction.
Qed.

(** The rows the three masks select are the rows that match. *)
Lemma during_fixation_filter mc pp r :
  pupil_positions_during_fixation mc pp r = filter (sample_matches mc r) pp.
Proof.
  unfold pupil_positions_during_fixation, mask_after_start, mask_before_end,
    mask_high_confidence.
  rewrite !mask_and_map, boolean_index_map. reflexivity.
Qed.

Lemma loop_body_emitted mc pp fos acc k :
  In k (map fixation_id fos) ->
  loop_body mc pp acc (k, filter (fun r => (fixation_id r =? k)%Z) fos)
  = Returned (acc ++ emitted mc pp fos k).
Proof.
  intro Hin. destruct (first_occurrence_some _ _ Hin) as [r Hr].
  unfold loop_body, emitted. cbn [snd]. rewrite iloc0_filter.
  unfold first_occurrence in *. rewrite Hr. cbn [bind].
  destruct (on_surf r); cbn [negb].
  - now rewrite during_fixation_filter.
  - now rewrite app_nil_r.
Qed.

Lemma for_each_emitted mc pp fos keys acc :
  (forall k, In k keys -> In k (map fixation_id fos)) ->
  for_each (loop_body mc pp)
           (map (fun k => (k, filter (fun r => (fixation_id r =? k)%Z) fos)) keys)
           acc
  = Returned (acc ++ flat_map (emitted mc pp fos) keys).
Proof.
  revert acc. induction keys as [|k keys IH]; intros acc Hkeys; simpl.
  - now rewrite app_nil_r.
  - rewrite loop_body_emitted by (apply Hkeys; now left). cbn [bind].
    rewrite IH by (intros; apply Hkeys; now right).
    now rewrite <- app_assoc.
Qed.

(** Cell 5 never raises, and its rows are the rows emitted for the
    group keys in ascending order. *)
Lemma aggregate_emitted mc pp fos :
  aggregate_by_fixation mc pp fos
  = Returned (flat_map (emitted mc pp fos)
                       (Pandas.group_keys (map fixation_id fos))).
Proof.
  unfold aggregate_by_fixation, Pandas.groupby.
  rewrite for_each_emitted; [reflexivity|].
  intros k Hk. now apply group_keys_In.
Qed.

Lemma emitted_fst mc pp fos k p : In p (emitted mc pp fos k) -> fst p = k.
Proof.
  unfold emitted. destruct (first_occurrence k fos) as [r|] eqn:Hr; [|easy].
  destruct (on_surf r); [|easy].
  intros [<-|[]]. simpl. eauto using first_occurrence_id.
Qed.

Lemma emitted_ids mc pp fos keys :
  map fst (flat_map (emitted mc pp fos) keys) = filter (valid_id fos) keys.
Proof.
  induction keys as [|k keys IH]; simpl; [reflexivity|].
  rewrite map_app, IH. unfold emitted, valid_id.
  destruct (first_occurrence k fos) as [r|] eqn:Hr; [|reflexivity].
  destruct (on_surf r); [|reflexivity].
  simpl. now rewrite (first_occurrence_id _ _ _ Hr).
Qed.

Lemma filter_emitted mc pp fos keys i :
  NoDup keys -> In i keys ->
  filter (fun p => (fst p =? i)%Z) (flat_map (emitted mc pp fos) keys)
  = emitted mc pp fos i.
Proof.
  assert (Hkeep : forall k (l : list (Z * float)),
            (forall p, In p l -> fst p = k) ->
            filter (fun p => (fst p =? k)%Z) l = l).
  { intros k l. induction l as [|p l IHl]; intro H; simpl; [reflexivity|].
    rewrite (proj2 (Z.eqb_eq _ _) (H p (or_introl eq_refl))).
    rewrite IHl; [reflexivity|]. intros; apply H; now right. }
  assert (Hdrop : forall k (l : list (Z * float)),
            k <> i -> (forall p, In p l -> fst p = k) ->
            filter (fun p => (fst p =? i)%Z) l = []).
  { intros k l Hne. induction l as [|p l IHl]; intro H; simpl; [reflexivity|].
    rewrite (proj2 (Z.eqb_neq _ _)).
    - apply IHl. intros; apply H; now right.
    - rewrite (H p (or_introl eq_refl)). exact Hne. }
  assert (Hnone : forall ks, ~ In i ks ->
            filter (fun p => (fst p =? i)%Z) (flat_map (emitted mc pp fos) ks) = []).
  { induction ks as [|k ks IHks]; intro Hni; simpl; [reflexivity|].
    rewrite filter_app, IHks, app_nil_r by (intro; apply Hni; now right).
    apply (Hdrop k); [intros ->; apply Hni; now left|].
    intros p. apply emitted_fst. }
  induction 1 as [|k ks Hnotin Hnd IH]; intros Hin; [destruct Hin|].
  simpl. rewrite filter_app. destruct Hin as [->|Hin].
  - rewrite Hnone, app_nil_r by assumption.
    apply Hkeep. intros p. apply emitted_fst.
  - rewrite IH by assumption.
    rewrite (Hdrop k); [reflexivity| |intros p; apply emitted_fst].
    intros ->. contradiction.
Qed.

(** *** Which identifiers get a row, and in which order *)

Lemma first_appearance_spec ids : forall seen x,
  In x (first_appearance seen ids) <-> In x ids /\ ~ In x seen.
Proof.
  induction ids as [|i ids IH]; intros seen x; simpl; [tauto|].
  destruct (existsb (Z.eqb i) seen) eqn:Hseen.
  - apply existsb_exists in Hseen. destruct Hseen as [y [Hy Heq]].
    apply Z.eqb_eq in Heq. subst y.
    rewrite IH. split; [tauto|].
    intros [[->|Hin] Hns]; [contradiction | tauto].
  - assert (Hni : ~ In i seen).
    { intro Hin. apply Bool.not_true_iff_false in Hseen. apply Hseen.
      apply existsb_exists. exists i. split; [assumption | apply Z.eqb_refl]. }
    simpl. rewrite IH. simpl. split.
    + intros [->|[Hin Hns]]; [tauto|]. split; [tauto|]. intro; apply Hns; tauto.
    + intros [[->|Hin] Hns]; [tauto|].
      destruct (Z.eq_dec i x) as [->|Hne]; [tauto|].
      right. split; [assumption|]. intros [?|?]; [contradiction | tauto].
Qed.

Lemma first_appearance_NoDup ids : forall seen, NoDup (first_appearance seen ids).
Proof.
  induction ids as [|i ids IH]; intros seen; simpl; [constructor|].
  destruct (existsb (Z.eqb i) seen); [apply IH|].
  constructor; [|apply IH].
  rewrite first_appearance_spec. simpl. tauto.
Qed.

Lemma valid_id_iff fos i :
  valid_id fos i = true <->
  exists r, first_occurrence i fos = Some r /\ on_surf r = true.
Proof.
  unfold valid_id. destruct (first_occurrence i fos) as [r|].
  - split; [intro H; exists r; tauto|]. now intros [r' [[= <-] H]].
  - split; [discriminate|]. now intros [r' [[=] _]].
Qed.

(** C1, as the code has it: the loop emits exactly one row per distinct
    valid identifier (an identifier whose first row is on the surface),
    so the emitted identifiers are a rearrangement of the valid
    identifiers listed by first appearance; the rows come in ascending
    identifier order, the order in which [groupby] yields its groups. *)
Theorem ids_ascending mc pp fos :
  exists res,
    aggregate_by_fixation mc pp fos = Returned res /\
    StronglySorted Z.lt (map fst res) /\
    Permutation (map fst res) (valid_ids_by_first_appearance fos) /\
    (forall i, In i (map fst res) <->
               exists r, first_occurrence i fos = Some r /\ on_surf r = true).
Proof.
  eexists. split; [apply aggregate_emitted|].
  rewrite emitted_ids.
  assert (Hs : StronglySorted Z.lt
                 (filter (valid_id fos) (Pandas.group_keys (map fixation_id fos))))
    by apply strictly_sorted_filter, group_keys_sorted.
  assert (Hin : forall i,
             In i (filter (valid_id fos) (Pandas.group_keys (map fixation_id fos)))
             <-> valid_id fos i = true).
  { intro i. rewrite filter_In, group_keys_In. split; [tauto|].
    intro Hv. split; [|assumption].
    apply valid_id_iff in Hv. destruct Hv as [r [Hr _]].
    eauto using first_occurrence_In. }
  repeat split.
  - exact Hs.
  - apply NoDup_Permutation.
    + now apply strictly_sorted_NoDup.
    + unfold valid_ids_by_first_appearance.
      apply NoDup_filter, first_appearance_NoDup.
    + intro i. rewrite Hin. unfold valid_ids_by_first_appearance.
      rewrite filter_In, first_appearance_spec. split; [|tauto].
      intro Hv. split; [|assumption]. split; [|tauto].
      apply valid_id_iff in Hv. destruct Hv as [r [Hr _]].
      eauto using first_occurrence_In.
  - intro Hi. now apply valid_id_iff, Hin.
  - intro Hi. now apply Hin, valid_id_iff.
Qed.

(** C1, as the specification words it, fails: with identifier 2
    exported before identifier 1 the rows come out as 1, 2 and not in
    the order of first appearance 2, 1. *)
Lemma ids_not_by_first_appearance :
  valid_ids_by_first_appearance fixations_2_then_1 = [2; 1]%Z /\
  exists res,
    mean_diameter_3d_by_fixation two_pupil_positions fixations_2_then_1
    = Returned res /\
    map fst res = [1; 2]%Z /\
    map fst res <> valid_ids_by_first_appearance fixations_2_then_1.
Proof.
  split; [reflexivity|].
  exists [(1%Z, 4); (2%Z, 4)].
  split; [vm_compute; reflexivity|].
  split; [reflexivity|]. vm_compute. discriminate.
Qed.

(** *** Duplicate rows *)

(** C2: the rows emitted for an identifier, none when its first row is
    off the surface, are the rows emitted for the one-row frame that
    holds only the first occurrence; later rows of the identifier add
    nothing. *)
Theorem duplicate_rows_ignored mc pp fos i r :
  first_occurrence i fos = Some r ->
  exists res res1,
    aggregate_by_fixation mc pp fos = Returned res /\
    aggregate_by_fixation mc pp [r] = Returned res1 /\
    filter (fun p => (fst p =? i)%Z) res = res1.
Proof.
  intro Hr. do 2 eexists.
  split; [apply aggregate_emitted|].
  split; [apply aggregate_emitted|].
  rewrite filter_emitted.
  - pose proof (first_occurrence_id _ _ _ Hr) as Hid. subst i.
    cbn [map Pandas.group_keys fold_right Pandas.insert_key flat_map].
    rewrite app_nil_r. unfold emitted. rewrite Hr.
    unfold first_occurrence. cbn [find]. now rewrite Z.eqb_refl.
  - apply strictly_sorted_NoDup, group_keys_sorted.
  - apply group_keys_In. eauto using first_occurrence_In.
Qed.

Lemma duplicate_rows_ignored_witness :
  first_occurrence 7 fixations_with_duplicate = Some (fixation_row 7 0 500 true) /\
  exists res res1,
    aggregate_by_fixation MIN_CONFIDENCE two_pupil_positions
                          fixations_with_duplicate = Returned res /\
    aggregate_by_fixation MIN_CONFIDENCE two_pupil_positions
                          [fixation_row 7 0 500 true] = Returned res1 /\
    filter (fun p => (fst p =? 7)%Z) res = res1.
Proof.
  split; [reflexivity|].
  apply (duplicate_rows_ignored MIN_CONFIDENCE two_pupil_positions
           fixations_with_duplicate 7 (fixation_row 7 0 500 true)).
  reflexivity.
Defined.

(** *** No sample in the window *)

(** C5: a valid fixation whose window holds no qualifying sample still
    gets its row; the value of the row is NaN, which is not the float
    zero, and the loop returns. *)
Theorem no_sample_gives_nan mc pp fos r :
  first_occurrence (fixation_id r) fos = Some r ->
  on_surf r = true ->
  pupil_positions_during_fixation mc pp r = [] ->
  exists res,
    aggregate_by_fixation mc pp fos = Returned res /\
    filter (fun p => (fst p =? fixation_id r)%Z) res = [(fixation_id r, nan)] /\
    is_nan nan = true /\ is_nan 0 = false /\ (nan =? 0) = false.
Proof.
  intros Hr Hsurf Hnone. eexists.
  split; [apply aggregate_emitted|].
  split; [|repeat split; reflexivity].
  rewrite filter_emitted.
  - unfold emitted. rewrite Hr, Hsurf.
    rewrite <- during_fixation_filter, Hnone. reflexivity.
  - apply strictly_sorted_NoDup, group_keys_sorted.
  - apply group_keys_In. eauto using first_occurrence_In.
Qed.

Lemma no_sample_gives_nan_witness :
  first_occurrence 3 fixations_without_samples = Some (fixation_row 3 10 500 true) /\
  pupil_positions_during_fixation MIN_CONFIDENCE two_pupil_positions
                                  (fixation_row 3 10 500 true) = [] /\
  exists res,
    aggregate_by_fixation MIN_CONFIDENCE two_pupil_positions
                          fixations_without_samples = Returned res /\
    filter (fun p => (fst p =? 3)%Z) res = [(3%Z, nan)] /\
    is_nan nan = true /\ is_nan 0 = false /\ (nan =? 0) = false.
Proof.
  split; [reflexivity|]. split; [reflexivity|].
  apply (no_sample_gives_nan MIN_CONFIDENCE two_pupil_positions
           fixations_without_samples (fixation_row 3 10 500 true));
    reflexivity.
Defined.

(** *** The confidence threshold is not validated *)

(** C7, as the code has it: cell 5 has no range check; it returns for
    every threshold, inside the unit interval or not, and the threshold
    the notebook uses, 0.8, lies inside the unit interval. *)
Theorem no_threshold_check mc pp fos :
  (exists res, aggregate_by_fixation mc pp fos = Returned res) /\
  (forall e, aggregate_by_fixation mc pp fos <> Raised e) /\
  in_unit_interval MIN_CONFIDENCE = true.
Proof.
  rewrite aggregate_emitted. split; [eauto|]. split; [discriminate|reflexivity].
Qed.

(** C7, as the specification words it, fails: the threshold 1.5 lies
    outside the unit interval and the loop returns a frame, every
    fixation with the value NaN, and raises nothing. *)
Lemma threshold_out_of_range_accepted :
  in_unit_interval 1.5 = false /\
  aggregate_by_fixation 1.5 two_pupil_positions fixations_2_then_1
  = Returned [(1%Z, nan); (2%Z, nan)] /\
  forall e, aggregate_by_fixation 1.5 two_pupil_positions fixations_2_then_1
            <> Raised e.
Proof.
  split; [reflexivity|].
  assert (H : aggregate_by_fixation 1.5 two_pupil_positions fixations_2_then_1
              = Returned [(1%Z, nan); (2%Z, nan)]) by (vm_compute; reflexivity).
  split; [exact H|]. intro e. rewrite H. discriminate.
Qed.

(** *** Which samples and which rows matter *)

Lemma emitted_drop_sample mc pp1 p pp2 fos k :
  (forall r, first_occurrence k fos = Some r -> sample_matches mc r p = false) ->
  emitted mc (pp1 ++ p :: pp2) fos k = emitted mc (pp1 ++ pp2) fos k.
Proof.
  intro H. unfold emitted.
  destruct (first_occurrence k fos) as [r|]; [|reflexivity].
  destruct (on_surf r); [|reflexivity].
  rewrite !filter_app. cbn [filter]. now rewrite (H r eq_refl).
Qed.

Lemma first_occurrence_row i fos r : first_occurrence i fos = Some r -> In r fos.
Proof. unfold first_occurrence. intro H. now apply find_some in H. Qed.

(** A pupil sample that matches no fixation row, because of its
    timestamp or of its confidence, has no influence on any mean: the
    frame with the sample and the frame without it give the same rows. *)
Theorem unmatched_sample_irrelevant mc pp1 p pp2 fos :
  (forall r, In r fos -> sample_matches mc r p = false) ->
  aggregate_by_fixation mc (pp1 ++ p :: pp2) fos
  = aggregate_by_fixation mc (pp1 ++ pp2) fos.
Proof.
  intro H. rewrite !aggregate_emitted. f_equal.
  apply flat_map_ext. intro k. apply emitted_drop_sample.
  intros r Hr. apply H. eauto using first_occurrence_row.
Qed.

Lemma unmatched_sample_irrelevant_witness :
  aggregate_by_fixation MIN_CONFIDENCE
    ([ {| pupil_timestamp := 0; diameter_3d := 4; confidence := 0.9 |} ]
       ++ {| pupil_timestamp := 5; diameter_3d := 9; confidence := 1 |}
       :: [ {| pupil_timestamp := 1; diameter_3d := 6; confidence := 0.5 |} ])
    fixations_2_then_1
  = aggregate_by_fixation MIN_CONFIDENCE
      ([ {| pupil_timestamp := 0; diameter_3d := 4; confidence := 0.9 |} ]
         ++ [ {| pupil_timestamp := 1; diameter_3d := 6; confidence := 0.5 |} ])
      fixations_2_then_1.
Proof.
  apply (unmatched_sample_irrelevant MIN_CONFIDENCE).
  intros r [<-|[<-|[]]]; reflexivity.
Defined.

(** A pupil sample whose confidence is below the threshold or NaN, or
    whose timestamp is NaN, has no influence on any mean, whatever the
    fixations are. *)
Theorem low_confidence_sample_irrelevant mc pp1 p pp2 fos :
  (mc <=? confidence p) = false \/ is_nan (pupil_timestamp p) = true ->
  aggregate_by_fixation mc (pp1 ++ p :: pp2) fos
  = aggregate_by_fixation mc (pp1 ++ pp2) fos.
Proof.
  intro H. rewrite !aggregate_emitted. f_equal.
  apply flat_map_ext. intro k. apply emitted_drop_sample.
  intros r _. unfold sample_matches. destruct H as [H|H].
  - rewrite H. apply andb_false_r.
  - destruct (leb_nan (pupil_timestamp p) (start_timestamp r) H) as [_ ->].
    reflexivity.
Qed.

Lemma low_confidence_sample_irrelevant_witness :
  aggregate_by_fixation MIN_CONFIDENCE
    ([ {| pupil_timestamp := 0; diameter_3d := 4; confidence := 0.9 |} ]
       ++ {| pupil_timestamp := 1; diameter_3d := 6; confidence := 0.5 |} :: [])
    fixations_2_then_1
  = aggregate_by_fixation MIN_CONFIDENCE
      ([ {| pupil_timestamp := 0; diameter_3d := 4; confidence := 0.9 |} ] ++ [])
      fixations_2_then_1.
Proof.
  apply (low_confidence_sample_irrelevant MIN_CONFIDENCE).
  left. reflexivity.
Defined.

(** Raising the threshold keeps, of the samples selected for a fixation,
    exactly those whose confidence reaches the higher threshold; no
    sample is selected at the higher threshold that was not at the
    lower. *)
Theorem higher_threshold_selects_fewer mc1 mc2 pp r :
  (mc1 <=? mc2) = true ->
  pupil_positions_during_fixation mc2 pp r
  = filter (fun p => mc2 <=? confidence p)
           (pupil_positions_during_fixation mc1 pp r).
Proof.
  intro H. rewrite !during_fixation_filter.
  induction pp as [|p pp IH]; [reflexivity|]. cbn [filter].
  assert (Hp : sample_matches mc2 r p
               = sample_matches mc1 r p && (mc2 <=? confidence p)).
  { unfold sample_matches.
    destruct (mc2 <=? confidence p) eqn:H2.
    - now rewrite (leb_trans _ _ _ H H2), !andb_true_r.
    - now rewrite !andb_false_r. }
  rewrite Hp. destruct (sample_matches mc1 r p); cbn [andb filter].
  - destruct (mc2 <=? confidence p); now rewrite IH.
  - exact IH.
Qed.

Lemma higher_threshold_selects_fewer_witness :
  pupil_positions_during_fixation 0.9 pupil_positions_around_window
                                  (fixation_row 3 10 500 true)
  = filter (fun p => 0.9 <=? confidence p)
           (pupil_positions_during_fixation MIN_CONFIDENCE
              pupil_positions_around_window (fixation_row 3 10 500 true)).
Proof.
  apply (higher_threshold_selects_fewer MIN_CONFIDENCE 0.9). reflexivity.
Defined.

Lemma first_occurrence_Permutation i fos fos' :
  NoDup (map fixation_id fos) -> Permutation fos fos' ->
  first_occurrence i fos = first_occurrence i fos'.
Proof.
  intros Hnd Hp.
  destruct (first_occurrence i fos) as [r|] eqn:Hr,
           (first_occurrence i fos') as [r'|] eqn:Hr'; try reflexivity.
  - f_equal. apply (NoDup_map_injective fixation_id fos); auto.
    + eauto using first_occurrence_row.
    + apply (Permutation_in _ (Permutation_sym Hp)).
      eauto using first_occurrence_row.
    + rewrite (first_occurrence_id _ _ _ Hr).
      now rewrite (first_occurrence_id _ _ _ Hr').
  - exfalso. destruct (first_occurrence_some i fos') as [x Hx]; [|congruence].
    apply (Permutation_in _ (Permutation_map fixation_id Hp)).
    eauto using first_occurrence_In.
  - exfalso. destruct (first_occurrence_some i fos) as [x Hx]; [|congruence].
    apply (Permutation_in _ (Permutation_map fixation_id (Permutation_sym Hp))).
    eauto using first_occurrence_In.
Qed.

(** When every identifier is exported once, the row order of the
    fixations frame does not matter: any rearrangement of the rows gives
    the same result frame. *)
Theorem row_order_irrelevant mc pp fos fos' :
  NoDup (map fixation_id fos) -> Permutation fos fos' ->
  aggregate_by_fixation mc pp fos = aggregate_by_fixation mc pp fos'.
Proof.
  intros Hnd Hp. rewrite !aggregate_emitted.
  rewrite (group_keys_Permutation _ _ (Permutation_map fixation_id Hp)).
  f_equal. apply flat_map_ext. intro k. unfold emitted.
  now rewrite (first_occurrence_Permutation k fos fos').
Qed.

Lemma row_order_irrelevant_witness :
  aggregate_by_fixation MIN_CONFIDENCE two_pupil_positions fixations_3_1_2
  = aggregate_by_fixation MIN_CONFIDENCE two_pupil_positions
      [ fixation_row 1 0 2000 true; fixation_row 3 0 500 true;
        fixation_row 2 1 500 false ].
Proof.
  apply (row_order_irrelevant MIN_CONFIDENCE two_pupil_positions
           fixations_3_1_2).
  - repeat constructor; simpl; intuition discriminate.
  - apply perm_swap.
Defined.

(** With an empty pupil frame every valid identifier still gets its
    row, with the value NaN; with an empty fixations frame the result
    frame is empty. Neither raises. *)
Theorem empty_frames mc pp fos :
  aggregate_by_fixation mc [] fos
  = Returned (map (fun k => (k, nan))
                  (filter (valid_id fos)
                          (Pandas.group_keys (map fixation_id fos)))) /\
  aggregate_by_fixation mc pp [] = Returned [].
Proof.
  split; [|reflexivity].
  rewrite aggregate_emitted. f_equal.
  induction (Pandas.group_keys (map fixation_id fos)) as [|k ks IH];
    [reflexivity|].
  cbn [flat_map filter]. rewrite IH. unfold emitted, valid_id.
  destruct (first_occurrence k fos) as [r|] eqn:Hr; [|reflexivity].
  destruct (on_surf r); [|reflexivity].
  cbn. now rewrite (first_occurrence_id _ _ _ Hr).
Qed.

(** The result frame has at most one row per row of the fixations
    frame, and no row at all when no fixation is on the surface. *)
Theorem result_size mc pp fos :
  exists res,
    aggregate_by_fixation mc pp fos = Returned res /\
    (length res <= length fos)%nat /\
    ((forall r, In r fos -> on_surf r = false) -> res = []).
Proof.
  eexists. split; [apply aggregate_emitted|]. split.
  - rewrite <- (length_map fst), emitted_ids.
    pose proof (filter_length_le (valid_id fos)
                  (Pandas.group_keys (map fixation_id fos))).
    pose proof (group_keys_length (map fixation_id fos)).
    rewrite length_map in *. lia.
  - intro Hoff.
    induction (Pandas.group_keys (map fixation_id fos)) as [|k ks IH];
      [reflexivity|].
    cbn [flat_map]. rewrite IH, app_nil_r. unfold emitted.
    destruct (first_occurrence k fos) as [r|] eqn:Hr; [|reflexivity].
    now rewrite (Hoff r (first_occurrence_row _ _ _ Hr)).
Qed.

(** *** Cells 3 to 5 *)

(** Rows of the loaded pupil frame whose method is not ["3d c++"] never
    reach cell 5: the notebook gives the same result with such a row and
    without it. *)
Theorem other_method_irrelevant csv1 row csv2 fos :
  String.eqb (PupilCsv.method row) method_3d = false ->
  notebook_06 (csv1 ++ row :: csv2) fos = notebook_06 (csv1 ++ csv2) fos.
Proof.
  intro H. unfold notebook_06, only_3d. rewrite !boolean_index_map.
  rewrite !filter_app. cbn [filter]. now rewrite H.
Qed.

Lemma other_method_irrelevant_witness :
  notebook_06 ([ csv_row 0 4 0.9 method_3d ]
                 ++ csv_row 0.5 40 1 method_2d :: [ csv_row 1 6 0.5 method_3d ])
              fixations_2_then_1
  = notebook_06 ([ csv_row 0 4 0.9 method_3d ] ++ [ csv_row 1 6 0.5 method_3d ])
                fixations_2_then_1.
Proof.
  apply (other_method_irrelevant [ csv_row 0 4 0.9 method_3d ]
           (csv_row 0.5 40 1 method_2d)).
  reflexivity.
Defined.

End Aggregation.

(** ** Tutorial 10: the tagging loops *)

Module Tagging.

Import Tutorial10.
Local Open Scope float_scope.

Lemma fold_left_ext {S X : Type} (f g : S -> X -> S) (xs : list X) :
  (forall s x, f s x = g s x) ->
  forall s, fold_left f xs s = fold_left g xs s.
Proof.
  intro Hfg. induction xs as [|x xs IH]; intro s; simpl; [reflexivity|].
  now rewrite Hfg, IH.
Qed.

(** *** The label a scan of the events leaves *)

Section LastMatch.

Context {E : Type}.
Variables (contains : E -> bool) (ident : E -> Z).

Lemma last_match_snoc events e :
  last_match contains ident (events ++ [e])
  = if contains e then Some (ident e) else last_match contains ident events.
Proof. unfold last_match. now rewrite fold_left_app. Qed.

Lemma last_match_spec events :
  last_containing contains ident events (last_match contains ident events).
Proof.
  induction events as [|e events IH] using rev_ind.
  - simpl. intros e [].
  - rewrite last_match_snoc. destruct (contains e) eqn:He.
    + simpl. exists events, e, []. repeat split; auto. intros e' [].
    + destruct (last_match contains ident events) as [i|]; simpl in *.
      * destruct IH as (before & e0 & after & -> & Hc & Hi & Hafter).
        exists before, e0, (after ++ [e]).
        rewrite <- app_assoc. repeat split; auto.
        intros e' Hin. apply in_app_or in Hin.
        destruct Hin as [Hin|[<-|[]]]; auto.
      * intros e' Hin. apply in_app_or in Hin.
        destruct Hin as [Hin|[<-|[]]]; auto.
Qed.

Lemma last_match_nil : last_match contains ident [] = None.
Proof. reflexivity. Qed.

End LastMatch.

Lemma last_match_ext {E : Type} (c1 c2 : E -> bool) (i1 i2 : E -> Z) events :
  (forall e, c1 e = c2 e) -> (forall e, i1 e = i2 e) ->
  last_match c1 i1 events = last_match c2 i2 events.
Proof.
  intros Hc Hi. induction events as [|e events IH] using rev_ind;
    [reflexivity|].
  now rewrite !last_match_snoc, IH, Hc, Hi.
Qed.

Lemma last_match_map {E F : Type} (h : E -> F) (c : F -> bool) (i : F -> Z)
      events :
  last_match c i (map h events)
  = last_match (fun e => c (h e)) (fun e => i (h e)) events.
Proof.
  induction events as [|e events IH] using rev_ind; [reflexivity|].
  rewrite map_app. cbn [map]. now rewrite !last_match_snoc, IH.
Qed.

(** *** A tagging loop, whatever the column it writes *)

Section TagLoop.

Context {E : Type}.
Variables (contains : float -> E -> bool) (ident : E -> Z).
Variable set_column : option Z -> Gaze.t -> Gaze.t.
Hypothesis set_column_timestamp :
  forall v g, Gaze.gaze_timestamp (set_column v g) = Gaze.gaze_timestamp g.
Hypothesis set_column_twice :
  forall v w g, set_column v (set_column w g) = set_column v g.

Lemma relabel_timestamp events g :
  Gaze.gaze_timestamp (relabel contains ident set_column events g)
  = Gaze.gaze_timestamp g.
Proof.
  unfold relabel. destruct (last_match _ _ _); auto.
Qed.

Lemma relabel_snoc events e g :
  relabel contains ident set_column (events ++ [e]) g
  = if contains (Gaze.gaze_timestamp g) e
    then set_column (Some (ident e)) g
    else relabel contains ident set_column events g.
Proof.
  unfold relabel. rewrite last_match_snoc.
  now destruct (contains (Gaze.gaze_timestamp g) e).
Qed.

Lemma set_column_relabel v events g :
  set_column v (relabel contains ident set_column events g) = set_column v g.
Proof.
  unfold relabel. destruct (last_match _ _ _); auto.
Qed.

(** One pass of the loop over all events relabels every row. *)
Lemma fold_tag events : forall gz,
  fold_left
    (fun gz e =>
       map (fun g => if contains (Gaze.gaze_timestamp g) e
                     then set_column (Some (ident e)) g else g) gz)
    events gz
  = map (relabel contains ident set_column events) gz.
Proof.
  induction events as [|e events IH] using rev_ind; intro gz.
  - simpl. now rewrite map_id.
  - rewrite fold_left_app. cbn [fold_left]. rewrite IH, map_map.
    apply map_ext. intro g.
    rewrite relabel_timestamp, set_column_relabel.
    now rewrite relabel_snoc.
Qed.

Lemma relabel_twice events g :
  relabel contains ident set_column events
          (relabel contains ident set_column events g)
  = relabel contains ident set_column events g.
Proof.
  unfold relabel at 1. rewrite relabel_timestamp.
  unfold relabel. destruct (last_match _ _ _); auto.
Qed.

End TagLoop.

(** *** The two loops of the notebook *)

Lemma relabel_blink_id {E : Type} (c : float -> E -> bool) (i : E -> Z) es g :
  Gaze.blink_id (relabel c i Gaze.set_blink_id es g)
  = match last_match (c (Gaze.gaze_timestamp g)) i es with
    | Some j => Some j
    | None => Gaze.blink_id g
    end.
Proof. unfold relabel. now destruct (last_match _ _ _). Qed.

Lemma relabel_fixation_id {E : Type} (c : float -> E -> bool) (i : E -> Z) es g :
  Gaze.fixation_id (relabel c i Gaze.set_fixation_id es g)
  = match last_match (c (Gaze.gaze_timestamp g)) i es with
    | Some j => Some j
    | None => Gaze.fixation_id g
    end.
Proof. unfold relabel. now destruct (last_match _ _ _). Qed.

Lemma relabel_same_but_blink_id {E : Type} (c : float -> E -> bool)
      (i : E -> Z) es g :
  same_but_blink_id g (relabel c i Gaze.set_blink_id es g).
Proof.
  unfold relabel, same_but_blink_id.
  destruct (last_match _ _ _); simpl; auto.
Qed.

Lemma relabel_same_but_fixation_id {E : Type} (c : float -> E -> bool)
      (i : E -> Z) es g :
  same_but_fixation_id g (relabel c i Gaze.set_fixation_id es g).
Proof.
  unfold relabel, same_but_fixation_id.
  destruct (last_match _ _ _); simpl; auto.
Qed.

Lemma tag_blinks_gaze nb :
  gaze (tag_blinks nb)
  = map (relabel blink_contains Blink.id Gaze.set_blink_id (blinks nb)) (gaze nb).
Proof.
  unfold tag_blinks. cbn [gaze].
  rewrite <- (fold_tag blink_contains Blink.id Gaze.set_blink_id) by reflexivity.
  apply fold_left_ext. intros gz b.
  unfold blink_body, found_sample_mask. now rewrite loc_assign_map.
Qed.

Lemma for_each_fixation_body fs : forall gz,
  for_each fixation_body fs gz
  = if forallb has_end_timestamp fs
    then Returned
           (map (relabel fixation_contains Fixation.id Gaze.set_fixation_id fs) gz)
    else Raised AttributeError.
Proof.
  intro gz.
  rewrite <- (fold_tag fixation_contains Fixation.id Gaze.set_fixation_id)
    by reflexivity.
  revert gz. induction fs as [|f fs IH]; intro gz; [reflexivity|].
  cbn [for_each forallb fold_left].
  unfold fixation_body at 1, has_end_timestamp at 1, fixation_contains at 2.
  destruct (Fixation.end_timestamp f) as [end_ts|]; [|reflexivity].
  cbn [bind andb]. rewrite IH.
  unfold found_sample_mask. now rewrite loc_assign_map.
Qed.

Lemma tag_fixations_eq nb :
  tag_fixations nb
  = if forallb has_end_timestamp (fixations nb)
    then Returned
           {| gaze := map (relabel fixation_contains Fixation.id
                                   Gaze.set_fixation_id (fixations nb))
                          (gaze nb);
              blinks := blinks nb;
              fixations := fixations nb |}
    else Raised AttributeError.
Proof.
  unfold tag_fixations. rewrite for_each_fixation_body.
  now destruct (forallb has_end_timestamp (fixations nb)).
Qed.

Lemma add_end_timestamp_has_end fs :
  forallb has_end_timestamp
          (map (fun f => Fixation.set_end_timestamp
                           (Fixation.start_timestamp f + Fixation.duration f / 1000)
                           f) fs)
  = true.
Proof. induction fs as [|f fs IH]; simpl; auto. Qed.

(** Cells 11 to 14 return, and every gaze row is first reset, then
    relabelled by the blinks, then by the fixations. *)
Lemma tag_samples_eq nb :
  tag_samples nb
  = Returned
      {| gaze := map (tagged_row nb) (gaze nb);
         blinks := blinks nb;
         fixations := fixations (add_end_timestamp nb) |}.
Proof.
  unfold tag_samples. rewrite tag_fixations_eq.
  cbn [fixations tag_blinks init_label_columns add_end_timestamp].
  rewrite add_end_timestamp_has_end.
  f_equal. f_equal.
  rewrite tag_blinks_gaze.
  cbn [gaze blinks init_label_columns add_end_timestamp].
  rewrite !map_map. reflexivity.
Qed.

(** After cell 11 the window read from [end_timestamp] is the window
    [[start, start + duration / 1000]]. *)
Lemma last_match_after_add_end_timestamp ts fs :
  last_match (fixation_contains ts) Fixation.id
             (map (fun f => Fixation.set_end_timestamp
                              (Fixation.start_timestamp f + Fixation.duration f / 1000)
                              f) fs)
  = last_match (fixation_window_contains ts) Fixation.id fs.
Proof.
  rewrite last_match_map. apply last_match_ext; reflexivity.
Qed.

Lemma tag_blinks_eq nb :
  tag_blinks nb
  = {| gaze := map (relabel blink_contains Blink.id Gaze.set_blink_id (blinks nb))
                   (gaze nb);
       blinks := blinks nb;
       fixations := fixations nb |}.
Proof.
  rewrite <- tag_blinks_gaze. reflexivity.
Qed.

Lemma Forall2_map_right {X Y : Type} (R : X -> Y -> Prop) (f : X -> Y) l :
  (forall x, R x (f x)) -> Forall2 R l (map f l).
Proof. intro H. induction l; simpl; constructor; auto. Qed.

(** The labels of a row after cells 11 to 14. *)
Lemma tagged_row_timestamp nb g :
  Gaze.gaze_timestamp (tagged_row nb g) = Gaze.gaze_timestamp g.
Proof.
  unfold tagged_row. now rewrite !relabel_timestamp by reflexivity.
Qed.

Lemma tagged_row_blink_id nb g :
  Gaze.blink_id (tagged_row nb g)
  = last_match (blink_contains (Gaze.gaze_timestamp g)) Blink.id (blinks nb).
Proof.
  unfold tagged_row.
  destruct (relabel_same_but_fixation_id fixation_contains Fixation.id
              (fixations (add_end_timestamp nb))
              (relabel blink_contains Blink.id Gaze.set_blink_id (blinks nb)
                 (Gaze.set_fixation_id None (Gaze.set_blink_id None g))))
    as (_ & _ & _ & _ & ->).
  rewrite relabel_blink_id. cbn [Gaze.gaze_timestamp Gaze.blink_id
    Gaze.set_fixation_id Gaze.set_blink_id].
  now destruct (last_match _ _ _).
Qed.

Lemma tagged_row_fixation_id nb g :
  Gaze.fixation_id (tagged_row nb g)
  = last_match (fixation_window_contains (Gaze.gaze_timestamp g)) Fixation.id
               (fixations nb).
Proof.
  unfold tagged_row. rewrite relabel_fixation_id.
  rewrite relabel_timestamp by reflexivity.
  destruct (relabel_same_but_blink_id blink_contains Blink.id (blinks nb)
              (Gaze.set_fixation_id None (Gaze.set_blink_id None g)))
    as (_ & _ & _ & _ & ->).
  cbn [Gaze.gaze_timestamp Gaze.fixation_id Gaze.set_fixation_id
    Gaze.set_blink_id add_end_timestamp fixations].
  rewrite last_match_after_add_end_timestamp.
  now destruct (last_match _ _ _).
Qed.

(** *** Last event wins *)

(** C3: cells 11 to 14 return; every gaze row keeps its place and its
    timestamp, and each of its two labels is the identifier of the last
    event, in iteration order, whose closed window contains the
    timestamp, and [None] when no window contains it. With no event of
    a kind every label of that kind is [None]. *)
Theorem labels_are_last_containing nb :
  exists nb',
    tag_samples nb = Returned nb' /\
    length (gaze nb') = length (gaze nb) /\
    (forall k g,
        nth_error (gaze nb) k = Some g ->
        exists g',
          nth_error (gaze nb') k = Some g' /\
          Gaze.gaze_timestamp g' = Gaze.gaze_timestamp g /\
          last_containing (blink_contains (Gaze.gaze_timestamp g)) Blink.id
                          (blinks nb) (Gaze.blink_id g') /\
          last_containing (fixation_window_contains (Gaze.gaze_timestamp g))
                          Fixation.id (fixations nb) (Gaze.fixation_id g')) /\
    (blinks nb = [] ->
     forall g', In g' (gaze nb') -> Gaze.blink_id g' = None) /\
    (fixations nb = [] ->
     forall g', In g' (gaze nb') -> Gaze.fixation_id g' = None).
Proof.
  eexists. split; [apply tag_samples_eq|]. cbn [gaze].
  split; [apply length_map|]. split; [|split].
  - intros k g Hk. exists (tagged_row nb g).
    rewrite nth_error_map, Hk. split; [reflexivity|].
    split; [apply tagged_row_timestamp|].
    rewrite tagged_row_blink_id, tagged_row_fixation_id.
    split; apply last_match_spec.
  - intros Hnil g' Hin. apply in_map_iff in Hin. destruct Hin as [g [<- _]].
    now rewrite tagged_row_blink_id, Hnil.
  - intros Hnil g' Hin. apply in_map_iff in Hin. destruct Hin as [g [<- _]].
    now rewrite tagged_row_fixation_id, Hnil.
Qed.

(** *** What happens to the event frames *)

(** C8, as the code has it: resetting the label columns and the two
    tagging loops write to the gaze frame only and leave [blinks] and
    [fixations] as they are. Cell 11, which derives the end of the
    fixations from start and duration, never touches [blinks], keeps
    the id, start and duration of every fixation, and writes
    [start + duration / 1000] into its [end_timestamp] field; this is
    how the fixations frame differs after cells 11 to 14. *)
Theorem event_frames_after_tagging nb :
  (blinks (init_label_columns nb) = blinks nb /\
   fixations (init_label_columns nb) = fixations nb) /\
  (blinks (tag_blinks nb) = blinks nb /\
   fixations (tag_blinks nb) = fixations nb) /\
  (forall nb', tag_fixations nb = Returned nb' ->
               blinks nb' = blinks nb /\ fixations nb' = fixations nb) /\
  (blinks (add_end_timestamp nb) = blinks nb /\
   Forall2 end_timestamp_added (fixations nb) (fixations (add_end_timestamp nb))) /\
  (exists nb', tag_samples nb = Returned nb' /\
               blinks nb' = blinks nb /\
               Forall2 end_timestamp_added (fixations nb) (fixations nb')).
Proof.
  assert (Hadd : Forall2 end_timestamp_added (fixations nb)
                         (fixations (add_end_timestamp nb))).
  { cbn [add_end_timestamp fixations]. apply Forall2_map_right.
    intro f. repeat split. }
  split; [split; reflexivity|]. split; [split; reflexivity|].
  split; [|split; [split; [reflexivity | exact Hadd]|]].
  - intros nb'. rewrite tag_fixations_eq.
    destruct (forallb has_end_timestamp (fixations nb)); [|discriminate].
    intros [= <-]. split; reflexivity.
  - eexists. split; [apply tag_samples_eq|]. split; [reflexivity | exact Hadd].
Qed.

(** C8, as the specification words it, fails: after cells 11 to 14 the
    fixation exported with start 10 and duration 500 carries an
    [end_timestamp] it did not have, so the fixations frame is not the
    frame that went in. *)
Lemma fixations_frame_modified :
  exists nb',
    tag_samples export_slice = Returned nb' /\
    map Fixation.end_timestamp (fixations export_slice) = [None] /\
    map Fixation.end_timestamp (fixations nb') = [Some 10.5] /\
    fixations nb' <> fixations export_slice.
Proof.
  eexists. split; [apply tag_samples_eq|].
  split; [reflexivity|]. split; [vm_compute; reflexivity|].
  vm_compute. discriminate.
Qed.

(** *** Tagging twice *)

Lemma reset_relabel_blink {E : Type} (c : float -> E -> bool) (i : E -> Z) es g :
  Gaze.set_fixation_id None
    (Gaze.set_blink_id None (relabel c i Gaze.set_blink_id es g))
  = Gaze.set_fixation_id None (Gaze.set_blink_id None g).
Proof. unfold relabel. now destruct (last_match _ _ _). Qed.

Lemma reset_relabel_fixation {E : Type} (c : float -> E -> bool) (i : E -> Z)
      es g :
  Gaze.set_fixation_id None
    (Gaze.set_blink_id None (relabel c i Gaze.set_fixation_id es g))
  = Gaze.set_fixation_id None (Gaze.set_blink_id None g).
Proof. unfold relabel. now destruct (last_match _ _ _). Qed.

Lemma add_end_timestamp_twice nb :
  fixations (add_end_timestamp (add_end_timestamp nb))
  = fixations (add_end_timestamp nb).
Proof.
  cbn [add_end_timestamp fixations]. rewrite map_map.
  apply map_ext. reflexivity.
Qed.

Lemma tagged_row_ext nb1 nb2 g :
  blinks nb1 = blinks nb2 ->
  fixations (add_end_timestamp nb1) = fixations (add_end_timestamp nb2) ->
  tagged_row nb1 g = tagged_row nb2 g.
Proof. unfold tagged_row. now intros -> ->. Qed.

Lemma tagged_row_twice nb g :
  tagged_row nb (tagged_row nb g) = tagged_row nb g.
Proof.
  unfold tagged_row at 1. unfold tagged_row at 1.
  now rewrite reset_relabel_fixation, reset_relabel_blink.
Qed.

Lemma relabel_commute {E F : Type} (cb : float -> E -> bool) (ib : E -> Z)
      (cf : float -> F -> bool) (jf : F -> Z) bs fs g :
  relabel cb ib Gaze.set_blink_id bs (relabel cf jf Gaze.set_fixation_id fs g)
  = relabel cf jf Gaze.set_fixation_id fs (relabel cb ib Gaze.set_blink_id bs g).
Proof.
  unfold relabel at 1 3. rewrite !relabel_timestamp by reflexivity.
  unfold relabel.
  destruct (last_match (cb _) ib bs), (last_match (cf _) jf fs); reflexivity.
Qed.

(** C9: a second pass of a tagging loop over the same events changes
    nothing: the blink loop, the fixation loop (which raises the second
    time exactly when it raised the first time), the two loops one after
    the other, and cells 11 to 14 as a whole give, run twice, the frames
    they give run once. *)
Theorem tagging_idempotent nb :
  tag_blinks (tag_blinks nb) = tag_blinks nb /\
  (nb' <- tag_fixations nb ;; tag_fixations nb') = tag_fixations nb /\
  (nb' <- tag_fixations (tag_blinks nb) ;; tag_fixations (tag_blinks nb'))
  = tag_fixations (tag_blinks nb) /\
  (nb' <- tag_samples nb ;; tag_samples nb') = tag_samples nb.
Proof.
  split; [|split; [|split]]; cycle 2.
  { rewrite tag_fixations_eq, !tag_blinks_eq. cbn [gaze blinks fixations].
    destruct (forallb has_end_timestamp (fixations nb)) eqn:Hend;
      [|reflexivity].
    cbn [bind]. rewrite tag_fixations_eq, tag_blinks_eq.
    cbn [gaze blinks fixations]. rewrite Hend. do 2 f_equal.
    rewrite !map_map. apply map_ext. intro g.
    rewrite relabel_commute.
    rewrite (relabel_twice fixation_contains Fixation.id Gaze.set_fixation_id)
      by reflexivity.
    now rewrite (relabel_twice blink_contains Blink.id Gaze.set_blink_id)
      by reflexivity. }
  - rewrite tag_samples_eq. cbn [bind]. rewrite tag_samples_eq.
    cbn [gaze blinks].
    assert (Hfix : forall gz,
               fixations (add_end_timestamp
                            {| gaze := gz; blinks := blinks nb;
                               fixations := fixations (add_end_timestamp nb) |})
               = fixations (add_end_timestamp nb))
      by (intro gz; apply (add_end_timestamp_twice nb)).
    rewrite Hfix. do 2 f_equal.
    rewrite map_map. apply map_ext. intro g.
    rewrite <- (tagged_row_twice nb g) at 2.
    apply tagged_row_ext; [reflexivity | apply Hfix].
  - rewrite !tag_blinks_eq. cbn [gaze blinks fixations].
    f_equal. rewrite map_map. apply map_ext. intro g.
    now apply relabel_twice.
  - rewrite tag_fixations_eq.
    destruct (forallb has_end_timestamp (fixations nb)) eqn:Hend;
      [|reflexivity].
    cbn [bind]. rewrite tag_fixations_eq. cbn [gaze blinks fixations].
    rewrite Hend. do 2 f_equal. rewrite map_map. apply map_ext. intro g.
    now apply relabel_twice.
Qed.

(** *** Two label columns *)

(** C10: the blink loop changes no column of a gaze row but
    [blink_id], the fixation loop no column but [fixation_id], and a
    sample whose timestamp lies in the window of a blink and in the
    window of a fixation carries, after cells 11 to 14, the id of a
    blink and the id of a fixation that both contain it. *)
Theorem label_columns_independent nb :
  Forall2 same_but_blink_id (gaze nb) (gaze (tag_blinks nb)) /\
  (forall nb', tag_fixations nb = Returned nb' ->
               Forall2 same_but_fixation_id (gaze nb) (gaze nb')) /\
  (forall k g b f,
      nth_error (gaze nb) k = Some g ->
      In b (blinks nb) -> In f (fixations nb) ->
      blink_contains (Gaze.gaze_timestamp g) b = true ->
      fixation_window_contains (Gaze.gaze_timestamp g) f = true ->
      exists nb' g' b' f',
        tag_samples nb = Returned nb' /\
        nth_error (gaze nb') k = Some g' /\
        In b' (blinks nb) /\ In f' (fixations nb) /\
        blink_contains (Gaze.gaze_timestamp g) b' = true /\
        fixation_window_contains (Gaze.gaze_timestamp g) f' = true /\
        Gaze.blink_id g' = Some (Blink.id b') /\
        Gaze.fixation_id g' = Some (Fixation.id f') /\
        Gaze.gaze_timestamp g' = Gaze.gaze_timestamp g /\
        Gaze.confidence g' = Gaze.confidence g).
Proof.
  split; [|split].
  - rewrite tag_blinks_gaze. apply Forall2_map_right.
    intro g. apply relabel_same_but_blink_id.
  - intros nb'. rewrite tag_fixations_eq.
    destruct (forallb has_end_timestamp (fixations nb)); [|discriminate].
    intros [= <-]. cbn [gaze]. apply Forall2_map_right.
    intro g. apply relabel_same_but_fixation_id.
  - intros k g b f Hk Hb Hf Hcb Hcf.
    pose proof (last_match_spec (blink_contains (Gaze.gaze_timestamp g))
                  Blink.id (blinks nb)) as Hlb.
    pose proof (last_match_spec (fixation_window_contains (Gaze.gaze_timestamp g))
                  Fixation.id (fixations nb)) as Hlf.
    rewrite <- tagged_row_blink_id in Hlb.
    rewrite <- tagged_row_fixation_id in Hlf.
    destruct (Gaze.blink_id (tagged_row nb g)) as [i|] eqn:Hi; simpl in Hlb;
      [|rewrite (Hlb b Hb) in Hcb; discriminate].
    destruct (Gaze.fixation_id (tagged_row nb g)) as [j|] eqn:Hj; simpl in Hlf;
      [|rewrite (Hlf f Hf) in Hcf; discriminate].
    destruct Hlb as (bb & b' & ba & Hbs & Hb' & <- & _).
    destruct Hlf as (fb & f' & fa & Hfs & Hf' & <- & _).
    exists {| gaze := map (tagged_row nb) (gaze nb);
              blinks := blinks nb;
              fixations := fixations (add_end_timestamp nb) |},
      (tagged_row nb g), b', f'.
    split; [apply tag_samples_eq|]. cbn [gaze].
    rewrite nth_error_map, Hk.
    repeat split; auto.
    + rewrite Hbs. apply in_elt.
    + rewrite Hfs. apply in_elt.
    + apply tagged_row_timestamp.
    + unfold tagged_row.
      destruct (relabel_same_but_fixation_id fixation_contains Fixation.id
                  (fixations (add_end_timestamp nb))
                  (relabel blink_contains Blink.id Gaze.set_blink_id (blinks nb)
                     (Gaze.set_fixation_id None (Gaze.set_blink_id None g))))
        as (_ & -> & _).
      destruct (relabel_same_but_blink_id blink_contains Blink.id (blinks nb)
                  (Gaze.set_fixation_id None (Gaze.set_blink_id None g)))
        as (_ & -> & _).
      reflexivity.
Qed.

(** *** The order of the loops and of the events *)


Lemma last_match_none {E : Type} (c : E -> bool) (i : E -> Z) es :
  (forall e, In e es -> c e = false) -> last_match c i es = None.
Proof.
  intro H. pose proof (last_match_spec c i es) as Hs.
  destruct (last_match c i es) as [j|]; [|reflexivity].
  destruct Hs as (before & e & after & -> & He & _).
  rewrite H in He; [discriminate | apply in_elt].
Qed.

Lemma last_match_Permutation {E : Type} (c : E -> bool) (i : E -> Z) es es' :
  (forall e1 e2, In e1 es -> In e2 es -> c e1 = true -> c e2 = true ->
                 i e1 = i e2) ->
  Permutation es es' ->
  last_match c i es = last_match c i es'.
Proof.
  intros Hsame Hp.
  pose proof (last_match_spec c i es) as H1.
  pose proof (last_match_spec c i es') as H2.
  destruct (last_match c i es) as [j|], (last_match c i es') as [j'|];
    simpl in H1, H2; try reflexivity.
  - destruct H1 as (b1 & e1 & a1 & E1 & C1 & <- & _).
    destruct H2 as (b2 & e2 & a2 & E2 & C2 & <- & _).
    f_equal. apply Hsame; auto.
    + rewrite E1. apply in_elt.
    + apply (Permutation_in _ (Permutation_sym Hp)). rewrite E2. apply in_elt.
  - destruct H1 as (b1 & e1 & a1 & E1 & C1 & _).
    rewrite H2 in C1; [discriminate|].
    apply (Permutation_in _ Hp). rewrite E1. apply in_elt.
  - destruct H2 as (b2 & e2 & a2 & E2 & C2 & _).
    rewrite H1 in C2; [discriminate|].
    apply (Permutation_in _ (Permutation_sym Hp)). rewrite E2. apply in_elt.
Qed.

Lemma last_match_drop {E : Type} (c : E -> bool) (i : E -> Z) es1 e es2 :
  c e = false -> last_match c i (es1 ++ e :: es2) = last_match c i (es1 ++ es2).
Proof.
  intro H. unfold last_match. rewrite !fold_left_app. cbn [fold_left].
  now rewrite H.
Qed.

(** When no gaze sample lies in the windows of two blinks with
    different ids, the order in which the blinks are listed does not
    matter: any rearrangement of the blinks frame gives the same gaze
    frame. *)
Theorem disjoint_blinks_any_order nb blinks' :
  Permutation (blinks nb) blinks' ->
  (forall g b1 b2,
      In g (gaze nb) -> In b1 (blinks nb) -> In b2 (blinks nb) ->
      blink_contains (Gaze.gaze_timestamp g) b1 = true ->
      blink_contains (Gaze.gaze_timestamp g) b2 = true ->
      Blink.id b1 = Blink.id b2) ->
  gaze (tag_blinks {| gaze := gaze nb; blinks := blinks';
                      fixations := fixations nb |})
  = gaze (tag_blinks nb).
Proof.
  intros Hp Hdisjoint. rewrite !tag_blinks_gaze. cbn [gaze blinks].
  apply map_ext_in. intros g Hg. unfold relabel.
  rewrite (last_match_Permutation _ _ blinks' (blinks nb));
    [reflexivity | | now apply Permutation_sym].
  intros b1 b2 H1 H2.
  apply Hdisjoint; auto; apply (Permutation_in _ (Permutation_sym Hp));
    assumption.
Qed.

Lemma disjoint_blinks_any_order_witness :
  gaze (tag_blinks
          {| gaze := gaze two_blinks_slice;
             blinks := [ {| Blink.id := 5; Blink.start_timestamp := 1;
                            Blink.end_timestamp := 2 |};
                         {| Blink.id := 6; Blink.start_timestamp := 3;
                            Blink.end_timestamp := 4 |} ];
             fixations := fixations two_blinks_slice |})
  = gaze (tag_blinks two_blinks_slice).
Proof.
  apply (disjoint_blinks_any_order two_blinks_slice).
  - apply perm_swap.
  - intros g b1 b2 Hg H1 H2. simpl in Hg, H1, H2.
    decompose [or] Hg; decompose [or] H1; decompose [or] H2; subst;
      try contradiction; vm_compute; congruence.
Defined.

(** A blink whose window is empty, because its start is after its end
    or because a bound is NaN, tags nothing: the gaze frame is the one
    obtained without that blink. *)
Theorem empty_window_tags_nothing gz bs1 b bs2 fs :
  (Blink.start_timestamp b <=? Blink.end_timestamp b) = false ->
  gaze (tag_blinks {| gaze := gz; blinks := bs1 ++ b :: bs2; fixations := fs |})
  = gaze (tag_blinks {| gaze := gz; blinks := bs1 ++ bs2; fixations := fs |}).
Proof.
  intro H. rewrite !tag_blinks_gaze. cbn [gaze blinks].
  apply map_ext. intro g. unfold relabel.
  rewrite last_match_drop; [reflexivity|].
  now apply between_empty_window.
Qed.

Lemma empty_window_tags_nothing_witness :
  gaze (tag_blinks
          {| gaze := gaze two_blinks_slice;
             blinks := blinks two_blinks_slice
                       ++ {| Blink.id := 9; Blink.start_timestamp := 4;
                             Blink.end_timestamp := 1 |} :: [];
             fixations := [] |})
  = gaze (tag_blinks
            {| gaze := gaze two_blinks_slice;
               blinks := blinks two_blinks_slice ++ [];
               fixations := [] |}).
Proof.
  apply (empty_window_tags_nothing (gaze two_blinks_slice)
           (blinks two_blinks_slice)).
  reflexivity.
Defined.

(** *** Rows that no event matches *)

(** The blink loop never clears a label: a gaze row that lies in no
    blink window leaves the loop exactly as it entered it, with the
    [blink_id] it had before. *)
Theorem unmatched_rows_untouched nb k g :
  nth_error (gaze nb) k = Some g ->
  (forall b, In b (blinks nb) ->
             blink_contains (Gaze.gaze_timestamp g) b = false) ->
  nth_error (gaze (tag_blinks nb)) k = Some g.
Proof.
  intros Hk Hnone. rewrite tag_blinks_gaze, nth_error_map, Hk. cbn.
  unfold relabel. now rewrite last_match_none.
Qed.

Lemma unmatched_rows_untouched_witness :
  nth_error (gaze (tag_blinks two_blinks_slice)) 5
  = Some (Gaze.set_blink_id (Some 4%Z) (gaze_row 6 1)).
Proof.
  apply (unmatched_rows_untouched two_blinks_slice 5).
  - reflexivity.
  - intros b [<-|[<-|[]]]; reflexivity.
Defined.

(** A gaze sample whose timestamp is NaN lies in no window: after cells
    11 to 14 both of its labels are [None]. *)
Theorem nan_timestamp_never_tagged nb k g :
  nth_error (gaze nb) k = Some g ->
  is_nan (Gaze.gaze_timestamp g) = true ->
  exists nb' g',
    tag_samples nb = Returned nb' /\
    nth_error (gaze nb') k = Some g' /\
    Gaze.blink_id g' = None /\ Gaze.fixation_id g' = None.
Proof.
  intros Hk Hnan. eexists. exists (tagged_row nb g).
  split; [apply tag_samples_eq|]. cbn [gaze].
  rewrite nth_error_map, Hk. split; [reflexivity|].
  rewrite tagged_row_blink_id, tagged_row_fixation_id.
  split; apply last_match_none; intros e _.
  - unfold blink_contains.
    now destruct (leb_nan _ (Blink.start_timestamp e) Hnan) as [_ ->].
  - unfold fixation_window_contains.
    now destruct (leb_nan _ (Fixation.start_timestamp e) Hnan) as [_ ->].
Qed.

Lemma nan_timestamp_never_tagged_witness :
  exists nb' g',
    tag_samples {| gaze := [gaze_row nan 1]; blinks := blinks export_slice;
                   fixations := fixations export_slice |} = Returned nb' /\
    nth_error (gaze nb') 0 = Some g' /\
    Gaze.blink_id g' = None /\ Gaze.fixation_id g' = None.
Proof.
  apply (nan_timestamp_never_tagged
           {| gaze := [gaze_row nan 1]; blinks := blinks export_slice;
              fixations := fixations export_slice |} 0 (gaze_row nan 1));
    reflexivity.
Defined.

(** *** When the fixation loop raises *)

(** Cell 14 raises exactly when some fixation row has no
    [end_timestamp], and then it raises [AttributeError]; it returns
    exactly when every row has one, so also on an empty fixations
    frame. *)
Theorem fixation_loop_raises_iff nb :
  (tag_fixations nb = Raised AttributeError <->
   exists f, In f (fixations nb) /\ Fixation.end_timestamp f = None) /\
  ((exists nb', tag_fixations nb = Returned nb') <->
   forall f, In f (fixations nb) -> Fixation.end_timestamp f <> None) /\
  (forall e, tag_fixations nb = Raised e -> e = AttributeError).
Proof.
  rewrite tag_fixations_eq.
  destruct (forallb has_end_timestamp (fixations nb)) eqn:Hall.
  - rewrite forallb_forall in Hall.
    assert (Hsome : forall f, In f (fixations nb) ->
                              Fixation.end_timestamp f <> None).
    { intros f Hf. specialize (Hall f Hf). unfold has_end_timestamp in Hall.
      now destruct (Fixation.end_timestamp f). }
    split; [|split].
    + split; [discriminate|]. intros (f & Hf & Hnone). now apply Hsome in Hf.
    + split; [intros _; exact Hsome | intros _; eauto].
    + discriminate.
  - assert (Hex : exists f, In f (fixations nb) /\
                            Fixation.end_timestamp f = None).
    { apply Bool.not_true_iff_false in Hall.
      induction (fixations nb) as [|f fs IH].
      - exfalso. now apply Hall.
      - cbn [forallb] in Hall. unfold has_end_timestamp at 1 in Hall.
        destruct (Fixation.end_timestamp f) eqn:Hf.
        + destruct IH as (f' & Hin & Hnone); [exact Hall|].
          exists f'. split; [now right | exact Hnone].
        + exists f. split; [now left | exact Hf]. }
    split; [|split].
    + split; [intros _; exact Hex | reflexivity].
    + split; [intros [nb' ?]; discriminate|].
      intro Hsome. destruct Hex as (f & Hf & Hnone). now apply Hsome in Hf.
    + now intros e [= <-].
Qed.

(** *** What cell 13 prints *)

Lemma filter_map_length {A : Type} (p : A -> bool) (f : A -> A) (l : list A) :
  (forall x, p (f x) = p x) ->
  length (filter p (map f l)) = length (filter p l).
Proof.
  intro H. induction l as [|x l IH]; [reflexivity|].
  cbn [map filter]. rewrite H. destruct (p x); cbn [length]; now rewrite IH.
Qed.

Lemma fold_blink_body_printing bs : forall gz out,
  fold_left blink_body_printing bs (gz, out)
  = (fold_left blink_body bs gz,
     out ++ map (fun b =>
                   (Z.of_nat (length (filter
                      (fun g => blink_contains (Gaze.gaze_timestamp g) b) gz)),
                    Blink.id b)) bs).
Proof.
  induction bs as [|b bs IH]; intros gz out.
  - cbn. now rewrite app_nil_r.
  - cbn [fold_left map].
    change (blink_body_printing (gz, out) b)
      with (blink_body gz b,
            out ++ [(Pandas.sum_mask
                       (found_sample_mask gz (Blink.start_timestamp b)
                                          (Blink.end_timestamp b)),
                     Blink.id b)]).
    rewrite IH. unfold found_sample_mask at 1. rewrite sum_mask_map.
    rewrite <- app_assoc. cbn [app]. do 3 f_equal.
    apply map_ext. intro b'. do 2 f_equal.
    unfold blink_body, found_sample_mask. rewrite loc_assign_map.
    apply filter_map_length. intro g.
    now destruct (Pandas.between _ _ _).
Qed.

(** Cell 13 prints one line per blink, in the order of the blinks frame;
    the number on the line is the number of gaze rows whose timestamp
    lies in the window of that blink, whatever the earlier iterations
    have written into the frame. The gaze frame it leaves is the frame
    of the loop without the print. *)
Theorem blink_loop_output nb :
  fst (tag_blinks_printing nb) = tag_blinks nb /\
  snd (tag_blinks_printing nb)
  = map (fun b =>
           (Z.of_nat (length (filter
              (fun g => blink_contains (Gaze.gaze_timestamp g) b) (gaze nb))),
            Blink.id b))
        (blinks nb).
Proof.
  unfold tag_blinks_printing. rewrite fold_blink_body_printing. split; reflexivity.
Qed.

(** When the blinks have distinct ids and no gaze sample lies in two
    blink windows, the number printed for a blink is the number of gaze
    rows that carry its id once cells 12 and 13 have run. *)
Theorem printed_count_is_label_count nb :
  NoDup (map Blink.id (blinks nb)) ->
  (forall g b1 b2,
      In g (gaze nb) -> In b1 (blinks nb) -> In b2 (blinks nb) ->
      blink_contains (Gaze.gaze_timestamp g) b1 = true ->
      blink_contains (Gaze.gaze_timestamp g) b2 = true ->
      b1 = b2) ->
  snd (tag_blinks_printing (init_label_columns nb))
  = map (fun b =>
           (Z.of_nat (length (filter (has_blink_id (Blink.id b))
                                     (gaze (tag_blinks (init_label_columns nb))))),
            Blink.id b))
        (blinks nb).
Proof.
  intros Hnd Hdisjoint. unfold tag_blinks_printing.
  rewrite fold_blink_body_printing. cbn [snd app].
  rewrite tag_blinks_gaze. cbn [gaze blinks init_label_columns].
  apply map_ext_in. intros b Hb. do 2 f_equal.
  rewrite !map_map.
  induction (gaze nb) as [|g gz IH]; [reflexivity|].
  cbn [map filter].
  assert (Hg : has_blink_id (Blink.id b)
                 (relabel blink_contains Blink.id Gaze.set_blink_id (blinks nb)
                    (Gaze.set_fixation_id None (Gaze.set_blink_id None g)))
               = blink_contains (Gaze.gaze_timestamp g) b).
  { unfold has_blink_id. rewrite relabel_blink_id.
    cbn [Gaze.gaze_timestamp Gaze.blink_id Gaze.set_fixation_id
         Gaze.set_blink_id].
    pose proof (last_match_spec (blink_contains (Gaze.gaze_timestamp g))
                  Blink.id (blinks nb)) as Hs.
    destruct (last_match _ _ _) as [j|]; simpl in Hs.
    - destruct Hs as (before & e & after & He & Hc & <- & _).
      assert (Hin : In e (blinks nb)) by (rewrite He; apply in_elt).
      destruct (blink_contains (Gaze.gaze_timestamp g) b) eqn:Hcb.
      + rewrite (Hdisjoint g e b); auto using Z.eqb_refl. now left.
      + apply Z.eqb_neq. intro Hid.
        rewrite (NoDup_map_injective Blink.id (blinks nb) e b) in Hc; auto.
        congruence.
    - symmetry. now apply Hs. }
  cbn [Gaze.gaze_timestamp Gaze.set_fixation_id Gaze.set_blink_id] in *.
  rewrite Hg.
  destruct (blink_contains (Gaze.gaze_timestamp g) b); cbn [length];
    rewrite IH; auto.
  all: intros g' b1 b2 Hg'; apply Hdisjoint; now right.
Qed.

Lemma printed_count_is_label_count_witness :
  snd (tag_blinks_printing (init_label_columns two_blinks_slice))
  = map (fun b =>
           (Z.of_nat (length (filter (has_blink_id (Blink.id b))
                        (gaze (tag_blinks (init_label_columns two_blinks_slice))))),
            Blink.id b))
        (blinks two_blinks_slice).
Proof.
  apply (printed_count_is_label_count two_blinks_slice).
  - repeat constructor; simpl; intuition discriminate.
  - intros g b1 b2 Hg H1 H2. simpl in Hg, H1, H2.
    decompose [or] Hg; decompose [or] H1; decompose [or] H2; subst;
      try contradiction; vm_compute; congruence.
Defined.

(** *** Leftovers of an earlier run *)

(** The result of cells 11 to 14 does not depend on what an earlier run
    left in the label columns of the gaze frame or in the
    [end_timestamp] column of the fixations frame: two notebooks that
    agree on the columns loaded from the export give the same frames. *)
Theorem stale_state_irrelevant nb1 nb2 :
  blinks nb2 = blinks nb1 ->
  Forall2 same_export_columns (gaze nb1) (gaze nb2) ->
  Forall2 same_exported_fixation (fixations nb1) (fixations nb2) ->
  tag_samples nb2 = tag_samples nb1.
Proof.
  intros Hb Hg Hf. rewrite !tag_samples_eq.
  assert (Hfix : fixations (add_end_timestamp nb2)
                 = fixations (add_end_timestamp nb1)).
  { cbn [add_end_timestamp fixations].
    induction Hf as [|f1 f2 l1 l2 (Hi & Hs & Hd) _ IH]; [reflexivity|].
    cbn [map]. rewrite IH. f_equal.
    unfold Fixation.set_end_timestamp. now rewrite Hi, Hs, Hd. }
  rewrite Hfix, Hb. do 2 f_equal.
  induction Hg as [|g1 g2 l1 l2 (Ht & Hc & Hx & Hy) _ IH]; [reflexivity|].
  cbn [map]. rewrite IH. f_equal.
  unfold tagged_row. rewrite Hfix, Hb. do 2 f_equal.
  unfold Gaze.set_fixation_id, Gaze.set_blink_id. cbn.
  now rewrite Ht, Hc, Hx, Hy.
Qed.

Lemma stale_state_irrelevant_witness :
  tag_samples
    {| gaze := map (Gaze.set_blink_id (Some 9%Z)) (gaze export_slice);
       blinks := blinks export_slice;
       fixations := map (Fixation.set_end_timestamp 0) (fixations export_slice) |}
  = tag_samples export_slice.
Proof.
  apply (stale_state_irrelevant export_slice).
  - reflexivity.
  - repeat constructor.
  - repeat constructor.
Defined.

End Tagging.

(** ** The match predicate and the window of both notebooks *)

Module IntervalJoin.

Import Tutorial06 Tutorial10.
Local Open Scope float_scope.

(** C4: in aggregation the selected samples are those with
    [start <= timestamp <= end] and [confidence >= min_confidence]; in
    tagging the mask is [start <= timestamp <= end] and depends on no
    column but the timestamp. All three comparisons are inclusive: a
    timestamp equal to a bound of a window that is not empty matches,
    and so does a confidence equal to the threshold. *)
Theorem match_predicate :
  (forall mc pp r,
      pupil_positions_during_fixation mc pp r
      = filter (fun p => (start_timestamp r <=? pupil_timestamp p)
                         && (pupil_timestamp p <=? fixation_end r)
                         && (mc <=? confidence p)) pp) /\
  (forall gz s e,
      found_sample_mask gz s e
      = map (fun g => (s <=? Gaze.gaze_timestamp g)
                      && (Gaze.gaze_timestamp g <=? e)) gz) /\
  (forall gz gz' s e,
      map Gaze.gaze_timestamp gz = map Gaze.gaze_timestamp gz' ->
      found_sample_mask gz s e = found_sample_mask gz' s e) /\
  (forall mc r p,
      (start_timestamp r <=? fixation_end r) = true ->
      (mc <=? confidence p) = true ->
      pupil_timestamp p = start_timestamp r \/ pupil_timestamp p = fixation_end r ->
      sample_matches mc r p = true) /\
  (forall mc r p,
      (start_timestamp r <=? pupil_timestamp p) = true ->
      (pupil_timestamp p <=? fixation_end r) = true ->
      is_nan mc = false -> confidence p = mc ->
      sample_matches mc r p = true) /\
  (forall s e,
      (s <=? e) = true ->
      Pandas.between s s e = true /\ Pandas.between e s e = true).
Proof.
  split; [exact Aggregation.during_fixation_filter|].
  split; [reflexivity|].
  split.
  { intros gz gz' s e H. unfold found_sample_mask.
    rewrite <- (map_map Gaze.gaze_timestamp (fun t => Pandas.between t s e)).
    rewrite <- (map_map Gaze.gaze_timestamp (fun t => Pandas.between t s e) gz').
    now rewrite H. }
  split.
  { intros mc r p Hw Hc Hts. unfold sample_matches.
    change (start_timestamp r + duration r / 1000) with (fixation_end r).
    rewrite Hc. destruct (leb_bounds_refl _ _ Hw) as [Hs He].
    destruct Hts as [-> | ->]; now rewrite ?Hs, ?He, ?Hw. }
  split.
  { intros mc r p Hs He Hnan Hc. unfold sample_matches.
    change (start_timestamp r + duration r / 1000) with (fixation_end r).
    now rewrite Hs, He, Hc, (leb_refl _ Hnan). }
  intros s e Hw. unfold Pandas.between, Pandas.le.
  destruct (leb_bounds_refl _ _ Hw) as [Hs He].
  now rewrite Hs, He, Hw.
Qed.

(** C6: an event given by a start in seconds and a duration in
    milliseconds is matched on the closed window
    [[start, start + duration / 1000]], by the aggregation loop and,
    after cell 11 has derived [end_timestamp], by the tagging loop; a
    fixation with start 10 and duration 500 has the window
    [[10, 10.5]]. *)
Theorem duration_window :
  (forall mc r p,
      sample_matches mc r p
      = (start_timestamp r <=? pupil_timestamp p)
        && (pupil_timestamp p <=? start_timestamp r + duration r / 1000)
        && (mc <=? confidence p)) /\
  (forall mc pp fos,
      aggregate_by_fixation mc pp fos
      = Returned (flat_map (emitted mc pp fos)
                           (Pandas.group_keys (map fixation_id fos)))) /\
  (forall nb,
      exists nb',
        tag_samples nb = Returned nb' /\
        Forall2 end_timestamp_added (fixations nb) (fixations nb') /\
        forall k g,
          nth_error (gaze nb) k = Some g ->
          exists g',
            nth_error (gaze nb') k = Some g' /\
            last_containing
              (fun f => (Fixation.start_timestamp f <=? Gaze.gaze_timestamp g)
                        && (Gaze.gaze_timestamp g <=?
                              Fixation.start_timestamp f
                              + Fixation.duration f / 1000))
              Fixation.id (fixations nb) (Gaze.fixation_id g')) /\
  fixation_end (fixation_row 3 10 500 true) = 10.5 /\
  map pupil_timestamp
      (pupil_positions_during_fixation MIN_CONFIDENCE
         pupil_positions_around_window (fixation_row 3 10 500 true))
  = [10; 10.5] /\
  (exists nb',
      tag_samples export_slice = Returned nb' /\
      map Fixation.end_timestamp (fixations nb') = [Some 10.5] /\
      map (fun g => (Gaze.gaze_timestamp g, Gaze.fixation_id g)) (gaze nb')
      = [(10, Some 3%Z); (10.25, Some 3%Z); (10.5, Some 3%Z); (10.75, None)]).
Proof.
  split; [reflexivity|].
  split; [exact Aggregation.aggregate_emitted|].
  split.
  { intro nb. eexists. split; [apply Tagging.tag_samples_eq|].
    split.
    - cbn [add_end_timestamp fixations]. apply Tagging.Forall2_map_right.
      intro f. repeat split.
    - intros k g Hk. exists (tagged_row nb g). cbn [gaze].
      rewrite nth_error_map, Hk. split; [reflexivity|].
      rewrite Tagging.tagged_row_fixation_id.
      apply (Tagging.last_match_spec
               (fixation_window_contains (Gaze.gaze_timestamp g))). }
  split; [reflexivity|].
  split; [vm_compute; reflexivity|].
  eexists. split; [apply Tagging.tag_samples_eq|].
  split; vm_compute; reflexivity.
Qed.

End IntervalJoin.

(** ** The notebooks on small frames *)

Module Scenarios.

Import Tutorial06 Tutorial10.
Local Open Scope float_scope.

(** Three gaze samples and one blink from 0 to 2: the samples at 0 and 1
    get the id of the blink, the sample at 5 stays unmatched. *)
Example tag_three_samples :
  map Gaze.blink_id
      (gaze (tag_blinks
               {| gaze := [gaze_row 0 1; gaze_row 1 1; gaze_row 5 1];
                  blinks := [ {| Blink.id := 1; Blink.start_timestamp := 0;
                                 Blink.end_timestamp := 2 |} ];
                  fixations := [] |}))
  = [Some 1%Z; Some 1%Z; None].
Proof. vm_compute. reflexivity. Qed.

(** Of two overlapping blinks the later one labels the shared samples. *)
Example later_blink_overwrites :
  map Gaze.blink_id
      (gaze (tag_blinks
               {| gaze := [gaze_row 0 1; gaze_row 1 1; gaze_row 5 1];
                  blinks := [ {| Blink.id := 1; Blink.start_timestamp := 0;
                                 Blink.end_timestamp := 2 |};
                              {| Blink.id := 2; Blink.start_timestamp := 1;
                                 Blink.end_timestamp := 5 |} ];
                  fixations := [] |}))
  = [Some 1%Z; Some 2%Z; Some 2%Z].
Proof. vm_compute. reflexivity. Qed.

(** The fixation loop needs the [end_timestamp] column of cell 11. *)
Example tag_fixations_without_end_timestamp :
  tag_fixations export_slice = Raised AttributeError.
Proof. reflexivity. Qed.

(** The sample of confidence 0.5 is left out of the mean. *)
Example mean_of_confident_samples :
  mean_diameter_3d_by_fixation two_pupil_positions [fixation_row 1 0 2000 true]
  = Returned [(1%Z, 4)].
Proof. vm_compute. reflexivity. Qed.

(** A fixation off the surface gets no row. *)
Example off_surface_skipped :
  mean_diameter_3d_by_fixation two_pupil_positions [fixation_row 2 0 1000 false]
  = Returned [].
Proof. reflexivity. Qed.

(** The duplicate row of identifier 7 is ignored; only its first row,
    with the window from 0 to 0.5, counts. *)
Example duplicate_row_of_7 :
  mean_diameter_3d_by_fixation two_pupil_positions fixations_with_duplicate
  = Returned [(7%Z, 4); (8%Z, 4)].
Proof. vm_compute. reflexivity. Qed.

End Scenarios.
